(** * Trade lifecycle supervisor: a shallow embedding of [adhoc_trade.py]
      and [src/risk_manager.py], with the properties of the specification.

    Modelling conventions.
    - Python numbers are modelled exactly: [int] as [Z], [float] as [Q].
      The risk-planner functions are written with [+], [-], [*], [abs] only
      and run unchanged on Python [int] and [Fraction], where this model is
      exact; on binary floats it is the usual idealisation.
    - A trade is the Python [dict] read from and written to [trades.json]:
      a finite map from string keys to JSON values.
    - The two collaborators (market-data reader, execution gateway) are
      modelled by the answers they give; every call made to them is
      appended to a log, in program order.
    - Domain. Candle prices are floats (the numeric columns of the frame
      are float64), and a reply of the gateway is [None] or a JSON object.
      Candle data with integer prices only (int64 columns, whose values
      [json.dumps] refuses in an order) and replies whose JSON is not an
      object (on which [.get] raises) are outside the model.
    - Rounding. [round] and the [.3f] format are exact on the rational a
      float stands for. A double that stands for a decimal exactly
      half-way between two multiples of 0.001 lies a little above or below
      it, so the program may take either neighbour where the model takes
      the even one. The statements whose subject is a size (the rounding
      of the quantity, the share of a target order) ask for a nearest
      multiple of the step ([nearest_step]) and hold for either
      neighbour. *)

From Stdlib Require Import ZArith QArith Qabs Qround Lqa Lia List String Ascii Bool.
From Stdlib Require Import DecimalString Sorted.
From stdpp Require Import base option list strings gmap.

Import ListNotations.
Local Open Scope string_scope.
Local Open Scope Z_scope.

(** ** JSON values held in a trade record *)

Module Json.

(** Scalars of a trade record. *)
Inductive scalar : Type :=
  | SNone
  | SBool (b : bool)
  | SInt (z : Z)
  | SFloat (q : Q)
  | SStr (s : string).

(** A field of a trade record is a scalar or a flat list of scalars
    ([targets], [tp_order_ids]). *)
Inductive value : Type :=
  | VScalar (s : scalar)
  | VList (l : list scalar).

Coercion VScalar : scalar >-> value.

Definition VNone : value := VScalar SNone.
Definition VTrue : value := VScalar (SBool true).
Definition VFalse : value := VScalar (SBool false).

(** Python truthiness ([bool(x)], as used by [if x] and [not x]). *)
Definition truthy_scalar (s : scalar) : bool :=
  match s with
  | SNone => false
  | SBool b => b
  | SInt z => negb (z =? 0)%Z
  | SFloat q => negb (Qeq_bool q 0)
  | SStr s => negb (String.eqb s EmptyString)
  end.

Definition truthy (v : value) : bool :=
  match v with
  | VScalar s => truthy_scalar s
  | VList l => match l with [] => false | _ :: _ => true end
  end.

(** Numeric reading of a scalar: [bool] is a subclass of [int]. *)
Definition as_num (s : scalar) : option Q :=
  match s with
  | SBool b => Some (if b then 1%Q else 0%Q)
  | SInt z => Some (inject_Z z)
  | SFloat q => Some q
  | SNone | SStr _ => None
  end.

(** Python [==] on scalars: numbers compare by value across [bool], [int]
    and [float]; values of unrelated types are unequal. *)
Definition scalar_eqb (a b : scalar) : bool :=
  match a, b with
  | SNone, SNone => true
  | SStr x, SStr y => String.eqb x y
  | _, _ =>
      match as_num a, as_num b with
      | Some x, Some y => Qeq_bool x y
      | _, _ => false
      end
  end.

Fixpoint scalars_eqb (l1 l2 : list scalar) : bool :=
  match l1, l2 with
  | [], [] => true
  | a :: l1, b :: l2 => scalar_eqb a b && scalars_eqb l1 l2
  | _, _ => false
  end.

Definition value_eqb (a b : value) : bool :=
  match a, b with
  | VScalar x, VScalar y => scalar_eqb x y
  | VList x, VList y => scalars_eqb x y
  | _, _ => false
  end.

(** A JSON object: [dict.get(key, default)]. *)
Definition dict_get (d : gmap string value) (key : string) (default : value) : value :=
  match d !! key with
  | Some v => v
  | None => default
  end.

End Json.

Import Json.

(** ** Persistence: [trades.json] *)

Module Store.

(** The state of [TRADES_FILE]: absent, present but not parseable as JSON,
    or holding a list of trade objects. *)
Inductive trades_file : Type :=
  | Absent
  | Unreadable
  | Holds (trades : list (gmap string value)).

(** [load_trades]: a missing file and a failed [json.load] both give []. *)
Definition load_trades (f : trades_file) : list (gmap string value) :=
  match f with
  | Absent => []
  | Unreadable => []
  | Holds trades => trades
  end.

(** [save_trades]: the file is rewritten with the whole list. *)
Definition save_trades (trades : list (gmap string value)) (f : trades_file) : trades_file :=
  Holds trades.

(** [add_trade] *)
Definition add_trade (trade_data : gmap string value) (f : trades_file) : trades_file :=
  let trades := load_trades f in
  let trades := (trades ++ [trade_data])%list in
  save_trades trades f.

(** The [for t in trades] loop of [update_trade]: [t[key] = value] mutates
    the element in place inside [trades]; the loop stops at the first match.
    The result is [None] when the loop runs to its end without a match. *)
Fixpoint update_first (trade_id : value) (key : string) (val : value)
    (trades : list (gmap string value)) : option (list (gmap string value)) :=
  match trades with
  | [] => None
  | t :: rest =>
      if value_eqb (dict_get t "id" VNone) trade_id
      then Some (<[key := val]> t :: rest)
      else match update_first trade_id key val rest with
           | Some rest' => Some (t :: rest')
           | None => None
           end
  end.

(** [update_trade]: [save_trades] is called only inside the matching
    branch; without a match the function falls off the loop. *)
Definition update_trade (trade_id : value) (key : string) (val : value)
    (f : trades_file) : trades_file :=
  let trades := load_trades f in
  match update_first trade_id key val trades with
  | Some trades' => save_trades trades' f
  | None => f
  end.

(** [delete_trade]: the comprehension keeps the trades whose id differs. *)
Definition delete_trade (trade_id : value) (f : trades_file) : trades_file :=
  let trades := load_trades f in
  let trades :=
    List.filter (fun t => negb (value_eqb (dict_get t "id" VNone) trade_id)) trades in
  save_trades trades f.

(** An id is absent from a collection when no record's ["id"] equals it
    (the test [t.get('id') == trade_id] is false on every record). *)
Definition id_absent (trade_id : value) (trades : list (gmap string value)) : Prop :=
  Forall (fun t => value_eqb (dict_get t "id" VNone) trade_id = false) trades.

End Store.

(** ** Python arithmetic used by the sizer *)

Module Py.

(** [str.upper()] on ASCII text. *)
Definition ascii_upper (c : ascii) : ascii :=
  let n := nat_of_ascii c in
  if (97 <=? n)%nat && (n <=? 122)%nat then ascii_of_nat (n - 32) else c.

Fixpoint upper (s : string) : string :=
  match s with
  | EmptyString => EmptyString
  | String c rest => String (ascii_upper c) (upper rest)
  end.

Definition Qlt_bool (a b : Q) : bool := negb (Qle_bool b a).

(** [a / b]: true division raises [ZeroDivisionError] on a zero divisor. *)
Definition div (a b : Q) : option Q :=
  if Qeq_bool b 0 then None else Some (a / b)%Q.

(** [round(x)] with one argument: the nearest integer, ties to the even
    one. *)
Definition round (x : Q) : Z :=
  let f := Qfloor x in
  match (x - inject_Z f ?= 1 # 2)%Q with
  | Lt => f
  | Gt => f + 1
  | Eq => if Z.even f then f else f + 1
  end.

(** [float(f"{x:.3f}")]: the decimal with three digits after the point
    nearest to [x] (ties to even), read back as a number. Python formats
    the binary value of the float: for a decimal exactly half-way between
    two such decimals (0.0005 as a quarter of 0.002) the double is a
    little above or below it, and either neighbour may come out. *)
Definition fmt3 (x : Q) : Q := (inject_Z (round (x * 1000)) / 1000)%Q.

(** [str(n)] for an [int]. *)
Definition str_of_int (n : Z) : string := NilZero.string_of_int (Z.to_int n).

(** [range(lo, hi)] *)
Definition range (lo hi : Z) : list Z :=
  List.map (fun i => lo + Z.of_nat i) (List.seq 0 (Z.to_nat (hi - lo))).

End Py.

(** ** [src/risk_manager.py] *)

Module RiskManager.

Record t : Type := {
  risk_type : string;
  risk_value : Q;
  sl_multiplier : Q
}.

(** [RiskManager.calculate_qty] *)
Definition calculate_qty (self : t) (balance entry_price leverage : Q) : option Q :=
  if String.eqb (risk_type self) "FIXED_SIZE" then
    Some (risk_value self)
  else if String.eqb (risk_type self) "PERCENTAGE" then
    let allocation := (balance * (risk_value self / 100))%Q in
    Py.div allocation entry_price
  else if String.eqb (risk_type self) "MARGIN" then
    let notional := (risk_value self * leverage)%Q in
    Py.div notional entry_price
  else if String.eqb (risk_type self) "MARGIN_PERCENTAGE" then
    let margin_amt := (balance * (risk_value self / 100))%Q in
    let notional := (margin_amt * leverage)%Q in
    Py.div notional entry_price
  else Some 0%Q.

(** [RiskManager.get_stop_loss_price] *)
Definition get_stop_loss_price (self : t) (entry_price : Q) (direction : string) (atr : Q) : Q :=
  let distance := (atr * sl_multiplier self)%Q in
  if String.eqb (Py.upper direction) "LONG" then (entry_price - distance)%Q
  else if String.eqb (Py.upper direction) "SHORT" then (entry_price + distance)%Q
  else entry_price.

(** [RiskManager.calculate_targets]: the loop over [range(1, 5)] appends one
    target per [r]. *)
Definition calculate_targets (entry_price : Q) (direction : string) (sl_price : Q) : list Q :=
  let risk_distance := Qabs (entry_price - sl_price) in
  if Qeq_bool risk_distance 0 then
    List.repeat entry_price 4
  else
    List.map
      (fun r =>
         let reward_distance := (risk_distance * inject_Z r)%Q in
         if String.eqb (Py.upper direction) "LONG"
         then (entry_price + reward_distance)%Q
         else (entry_price - reward_distance)%Q)
      (Py.range 1 5).

(** [RiskManager.get_candle_based_stop_loss] *)
Definition get_candle_based_stop_loss (entry_price : Q) (direction : string)
    (candle_high candle_low multiplier : Q) : Q :=
  let candle_size := Qabs (candle_high - candle_low) in
  let distance := (candle_size * multiplier)%Q in
  if String.eqb (Py.upper direction) "LONG" then (entry_price - distance)%Q
  else if String.eqb (Py.upper direction) "SHORT" then (entry_price + distance)%Q
  else entry_price.

(** [RiskManager.calculate_fixed_point_targets] *)
Definition calculate_fixed_point_targets (entry_price : Q) (direction : string)
    (points : list Q) : list Q :=
  List.map
    (fun p =>
       if String.eqb (Py.upper direction) "LONG"
       then (entry_price + p)%Q
       else (entry_price - p)%Q)
    points.

End RiskManager.

(** ** The collaborators and the supervisor of [adhoc_trade.py] *)

Module Supervisor.

Import Store.

(** A row of the frame returned by [DataClient.get_klines]. The prices
    are floats: [pd.to_numeric] gives float64 columns for candle data with
    decimal prices, and a value read from them is a [numpy.float64], which
    is a Python [float]. (With integer prices only, the columns are int64
    and their values are not accepted by [json.dumps]; such frames are not
    modelled.) *)
Record candle : Type := {
  high : Q;
  low : Q;
  close : Q
}.

(** What [ExecutionClient] hands back: the parsed JSON object of the
    gateway's reply, or [None] when the request failed. (A reply whose
    JSON is not an object is not modelled: if it is falsy the callers
    treat it as [None], otherwise [.get] raises on it.) *)
Definition response : Type := option (gmap string scalar).

(** Calls made to the collaborators, and the plan shown to the operator. *)
Inductive call : Type :=
  | set_leverage (symbol : string) (leverage : Q)
  | get_klines (symbol : value) (interval : string) (limit : Z)
  | get_balance (asset : string)
  | show_plan (side : string) (qty entry sl_price : Q) (targets : list Q)
  | place_order (symbol : value) (side : string) (qty : value)
      (order_type : string) (price : value) (params : gmap string value)
  | cancel_order (order_id : value)
  | edit_order (order_id : value) (new_stop_price : value).

(** The calls that create, change or cancel an order. *)
Definition is_order_call (c : call) : bool :=
  match c with
  | place_order _ _ _ _ _ _ | cancel_order _ | edit_order _ _ => true
  | _ => false
  end.

Definition order_calls (log : list call) : list call := List.filter is_order_call log.

(** [resp.get(key)] on a reply that is known to be an object. *)
Definition resp_get (d : gmap string scalar) (key : string) : scalar :=
  match d !! key with
  | Some v => v
  | None => SNone
  end.

(** [edit_resp and edit_resp.get('code') == 200] *)
Definition edit_succeeded (edit_resp : response) : bool :=
  match edit_resp with
  | None => false
  | Some d => negb (size d =? 0)%nat && scalar_eqb (resp_get d "code") (SInt 200)
  end.

(** [resp and resp.get('id')] *)
Definition has_id (resp : response) : bool :=
  match resp with
  | None => false
  | Some d => negb (size d =? 0)%nat && truthy_scalar (resp_get d "id")
  end.

(** [resp.get('id')] once [has_id] holds. *)
Definition id_of (resp : response) : scalar :=
  match resp with
  | None => SNone
  | Some d => resp_get d "id"
  end.

(** What the world answers during one pass of the monitoring loop. The
    two replies are consumed only if the corresponding call is made. *)
Record tick : Type := {
  klines : list candle;         (* get_klines(symbol, '1m', limit=1) *)
  edit_resp : response;         (* edit_order(...) *)
  new_sl_resp : response        (* place_order(..., 'STOP_MARKET', ...) *)
}.

(** The part of the process state that outlives a statement: the trade
    file and the log of calls. *)
Record world : Type := {
  file : trades_file;
  log : list call
}.

Definition emit (c : call) (w : world) : world :=
  {| file := file w; log := (log w ++ [c])%list |}.

Definition persist (trade_id : value) (key : string) (val : value) (w : world) : world :=
  {| file := update_trade trade_id key val (file w); log := log w |}.

(** How a run of [monitor_trade] or [main] ends. *)
Inductive exit : Type :=
  | MissingApiKeys        (* "ERROR: API Keys missing." *)
  | BadArguments          (* argparse rejects the action *)
  | NoOpenTrades          (* "No open trades found in trades.json." *)
  | QuantityTooSmall      (* "Error: Quantity too small." *)
  | Declined              (* the operator did not answer yes *)
  | MarketOrderFailed     (* "Market Order Failed." *)
  | NoStopLossId          (* "No SL Order ID found. Cannot manage SL." *)
  | Stopped               (* KeyboardInterrupt caught by the monitor *)
  | Crashed.              (* an exception nobody catches *)

(** *** [monitor_trade] *)

(** The variables of [monitor_trade] that the loop reassigns. *)
Record locals : Type := {
  sl_order_id : value;
  sl_moved : value
}.

Section Monitor.

(** The variables bound once before the loop. *)
Variables (symbol monitor_trigger_level targets entry_price side qty trade_id : value).

(** [monitor_trigger_level > 0]; [None] is a [TypeError]. *)
Definition trigger_enabled : option bool :=
  match monitor_trigger_level with
  | VScalar s =>
      match as_num s with
      | Some q => Some (Py.Qlt_bool 0 q)
      | None => None
      end
  | VList _ => None
  end.

(** [target_idx = monitor_trigger_level - 1] *)
Definition target_idx : option scalar :=
  match monitor_trigger_level with
  | VScalar (SBool b) => Some (SInt ((if b then 1 else 0) - 1))
  | VScalar (SInt z) => Some (SInt (z - 1))
  | VScalar (SFloat q) => Some (SFloat (q - 1))
  | _ => None
  end.

(** [len(targets)] *)
Definition len_targets : option Z :=
  match targets with
  | VList l => Some (Z.of_nat (List.length l))
  | VScalar (SStr s) => Some (Z.of_nat (String.length s))
  | VScalar _ => None
  end.

(** [0 <= target_idx < len(targets)]: the second comparison, and with it
    [len], is evaluated only if the first one holds. *)
Definition in_range (idx : scalar) : option bool :=
  match as_num idx with
  | None => None
  | Some i =>
      if Qle_bool 0 i then
        match len_targets with
        | Some n => Some (Py.Qlt_bool i (inject_Z n))
        | None => None
        end
      else Some false
  end.

(** [targets[target_idx]] for an index already found in range; a [float]
    index is a [TypeError]. *)
Definition subscript (idx : scalar) : option scalar :=
  match idx with
  | SInt z =>
      match targets with
      | VList l => l !! Z.to_nat z
      | VScalar (SStr s) => Some (SStr (String.substring (Z.to_nat z) 1 s))
      | VScalar _ => None
      end
  | _ => None
  end.

(** The [if]/[elif] that sets [hit]: the price comparison is evaluated only
    for the matching side, and fails on a bound that is not a number. *)
Definition price_hit (curr_price : Q) (trigger_pr : scalar) : option bool :=
  if value_eqb side (SStr "LONG") then
    match as_num trigger_pr with
    | Some t => Some (Qle_bool t curr_price)
    | None => None
    end
  else if value_eqb side (SStr "SHORT") then
    match as_num trigger_pr with
    | Some t => Some (Qle_bool curr_price t)
    | None => None
    end
  else Some false.

(** Lines 95-106: is the breakeven trigger observed at [curr_price]?
    [None] stands for an exception raised while deciding. *)
Definition trigger_observed (l : locals) (curr_price : Q) : option bool :=
  match trigger_enabled with
  | None => None
  | Some false => Some false
  | Some true =>
      if truthy (sl_moved l) then Some false
      else
        match target_idx with
        | None => None
        | Some idx =>
            match in_range idx with
            | None => None
            | Some false => Some false
            | Some true =>
                match subscript idx with
                | None => None
                | Some trigger_pr => price_hit curr_price trigger_pr
                end
            end
        end
  end.

(** Lines 109-126: move the stop to the entry price. *)
Definition move_stop (t : tick) (l : locals) (w : world) : locals * world :=
  let w := emit (edit_order (sl_order_id l) entry_price) w in
  if edit_succeeded (edit_resp t) then
    let l := {| sl_order_id := sl_order_id l; sl_moved := VTrue |} in
    (l, persist trade_id "sl_moved" VTrue w)
  else
    let w := emit (cancel_order (sl_order_id l)) w in
    let sl_side := if value_eqb side (SStr "LONG") then "sell" else "buy" in
    let w := emit (place_order symbol sl_side qty "STOP_MARKET" VNone
                     {[ "stopPrice" := entry_price ]}) w in
    if has_id (new_sl_resp t) then
      let l := {| sl_order_id := VScalar (id_of (new_sl_resp t)); sl_moved := sl_moved l |} in
      let w := persist trade_id "sl_order_id" (sl_order_id l) w in
      let l := {| sl_order_id := sl_order_id l; sl_moved := VTrue |} in
      (l, persist trade_id "sl_moved" VTrue w)
    else (l, w).

(** One pass through the body of [while True]. [inl] is an exception
    leaving the loop, [inr] the state at the end of the pass. *)
Definition iteration (t : tick) (l : locals) (w : world) : world + locals * world :=
  let w := emit (get_klines symbol "1m" 1) w in
  match last (klines t) with
  | None => inr (l, w)                         (* df_mon.empty: continue *)
  | Some row =>
      let curr_price := close row in
      match trigger_observed l curr_price with
      | None => inl w
      | Some false => inr (l, w)
      | Some true => inr (move_stop t l w)
      end
  end.

(** The loop, run against the answers of successive passes. When the list
    is exhausted the operator interrupts the [time.sleep(15)] that opens
    the next pass. *)
Fixpoint loop (ticks : list tick) (l : locals) (w : world) : exit * (locals * world) :=
  match ticks with
  | [] => (Stopped, (l, w))
  | t :: ticks =>
      match iteration t l w with
      | inl w' => (Crashed, (l, w'))
      | inr (l', w') => loop ticks l' w'
      end
  end.

(** Observer for the properties below: the number of passes of a run in
    which [sl_moved] goes from unset to set. *)
Definition migrated (l l' : locals) : bool :=
  negb (truthy (sl_moved l)) && truthy (sl_moved l').

Fixpoint migrations (ticks : list tick) (l : locals) (w : world) : nat :=
  match ticks with
  | [] => 0
  | t :: ticks =>
      match iteration t l w with
      | inl _ => 0
      | inr (l', w') => (if migrated l l' then 1 else 0) + migrations ticks l' w'
      end
  end.

End Monitor.

(** [monitor_trade(trade, exec_client, data_client)] *)
Definition monitor_trade (trade : gmap string value) (ticks : list tick) (w : world)
    : exit * world :=
  match trade !! "symbol" with
  | None => (Crashed, w)                        (* trade['symbol']: KeyError *)
  | Some symbol =>
      let sl_order_id := dict_get trade "sl_order_id" VNone in
      let monitor_trigger_level := dict_get trade "monitor_trigger_level" (SInt 0) in
      let sl_moved := dict_get trade "sl_moved" VFalse in
      let targets := dict_get trade "targets" (VList []) in
      let entry_price := dict_get trade "entry_price" VNone in
      let side := dict_get trade "side" VNone in
      let qty := dict_get trade "qty" VNone in
      let trade_id := dict_get trade "id" VNone in
      if negb (truthy sl_order_id) then (NoStopLossId, w)
      else
        let '(e, (_, w')) :=
          loop symbol monitor_trigger_level targets entry_price side qty trade_id
            ticks {| sl_order_id := sl_order_id; sl_moved := sl_moved |} w in
        (e, w')
  end.

(** *** [main] *)

(** [config.json] after the defaults of [main] have been applied. *)
Record config : Type := {
  leverage : Q;                              (* config.get('leverage', 10) *)
  sl_candle_multiplier : Q;                  (* risk: default 2.0 *)
  tp_fixed_points : list Q;                  (* risk: default [300, 500, 800, 1000] *)
  move_sl_to_entry_when_tp_hit : value;      (* risk: default 0 *)
  position_size_type : string;               (* position_size: default 'FIXED' *)
  position_size_value : Q                    (* position_size: default 0.001 *)
}.

Definition default_config : config := {|
  leverage := 10;
  sl_candle_multiplier := 2;
  tp_fixed_points := [300; 500; 800; 1000]%Q;
  move_sl_to_entry_when_tp_hit := SInt 0;
  position_size_type := "FIXED";
  position_size_value := 1 # 1000
|}.

(** What the outside world answers to one run of [main]. *)
Record answers : Type := {
  api_keys : bool;              (* COINDCX_API_KEY and COINDCX_API_SECRET are set *)
  frame : list candle;          (* get_klines(symbol, '15m', limit=5), oldest first *)
  balance : Q;                  (* get_balance('USDT') *)
  confirm : string;             (* input(...).strip().lower() *)
  order : response;             (* the market entry *)
  sl_resp : response;           (* the stop-loss placement *)
  tp_resp : nat -> response;    (* the placement for the i-th target *)
  now : Z;                      (* int(time.time()) *)
  ticks : list tick             (* the monitoring passes before the interrupt *)
}.

Definition choices : list string := ["LONG"; "SHORT"; "long"; "short"; "RESUME"].

Definition mem (x : string) (l : list string) : bool := List.existsb (String.eqb x) l.

(** The [for t in targets] loop of lines 270-273; [i] counts the passes. *)
Fixpoint place_targets (symbol : string) (sl_side : string) (chunk_qty : Q)
    (replies : nat -> response) (i : nat) (targets : list Q)
    (tp_ids : list scalar) (w : world) : list scalar * world :=
  match targets with
  | [] => (tp_ids, w)
  | t :: rest =>
      let w := emit (place_order (SStr symbol) sl_side (SFloat chunk_qty) "LIMIT"
                       (SFloat t) ∅) w in
      let tp_ids :=
        if has_id (replies i) then (tp_ids ++ [id_of (replies i)])%list else tp_ids in
      place_targets symbol sl_side chunk_qty replies (S i) rest tp_ids w
  end.

(** [entry_price_executed = current_price # Fallback] *)
Definition entry_price_executed (current_price : Q) (order : response) : Q := current_price.

(** Lines 226-231: rounding of the quantity to the 0.001 step. The
    quotient is exact here; the program divides doubles, so for a quantity
    exactly half-way between two multiples of the step (0.0215) its
    quotient can fall on either side of the half and either neighbour may
    come out. At 0.0005 the double quotient is exactly 0.5, and the
    program gives 0 as here. *)
Definition step_size : Q := 1 # 1000.

Definition round_to_step (qty : Q) : Q :=
  let steps := (qty / step_size)%Q in
  let qty := (inject_Z (Py.round steps) * step_size)%Q in
  Py.fmt3 qty.

(** Lines 190-193 *)
Definition rm_type_of (pos_type : string) : string :=
  if String.eqb pos_type "PERCENTAGE" then "PERCENTAGE"
  else if String.eqb pos_type "MARGIN" then "MARGIN"
  else if String.eqb pos_type "MARGIN_PERCENTAGE" then "MARGIN_PERCENTAGE"
  else "FIXED_SIZE".

(** Lines 214-224 *)
Definition size_position (risk_manager : RiskManager.t) (rm_type : string)
    (pos_value balance current_price leverage : Q) : option Q :=
  if String.eqb rm_type "PERCENTAGE" then
    RiskManager.calculate_qty risk_manager balance current_price leverage
  else if String.eqb rm_type "MARGIN" then
    RiskManager.calculate_qty risk_manager 0 current_price leverage
  else if String.eqb rm_type "MARGIN_PERCENTAGE" then
    RiskManager.calculate_qty risk_manager balance current_price leverage
  else Some pos_value.

(** Lines 275-287 *)
Definition trade_record (now : Z) (symbol side : string) (qty entry_price : Q)
    (sl_order_id : value) (tp_ids : list scalar) (targets : list Q)
    (monitor_trigger : value) : gmap string value :=
  <[ "id" := VScalar (SStr (Py.str_of_int now)) ]>
  (<[ "symbol" := VScalar (SStr symbol) ]>
  (<[ "side" := VScalar (SStr side) ]>
  (<[ "qty" := VScalar (SFloat qty) ]>
  (<[ "entry_price" := VScalar (SFloat entry_price) ]>
  (<[ "sl_order_id" := sl_order_id ]>
  (<[ "tp_order_ids" := VList tp_ids ]>
  (<[ "targets" := VList (List.map SFloat targets) ]>
  (<[ "monitor_trigger_level" := monitor_trigger ]>
  (<[ "sl_moved" := VFalse ]> ∅))))))))).

(** Lines 173-199: the sizing policy in force, after the [--size]
    override, and the risk manager built from it. *)
Definition position_policy (args_size : option Q) (cfg : config) : string * Q :=
  let pos_type := Py.upper (position_size_type cfg) in
  let pos_value := position_size_value cfg in
  let '(pos_type, pos_value) :=
    match args_size with
    | Some s => ("FIXED", s)
    | None => (pos_type, pos_value)
    end in
  (rm_type_of pos_type, pos_value).

Definition risk_manager_of (args_size : option Q) (cfg : config) : RiskManager.t :=
  {| RiskManager.risk_type := fst (position_policy args_size cfg);
     RiskManager.risk_value := snd (position_policy args_size cfg);
     RiskManager.sl_multiplier := sl_candle_multiplier cfg |}.

(** Lines 169-292: a new trade. *)
Definition open_trade (side : string) (args_size : option Q) (cfg : config)
    (a : answers) (w : world) : exit * world :=
  let leverage := leverage cfg in
  let sl_multiplier := sl_candle_multiplier cfg in
  let tp_points := tp_fixed_points cfg in
  let monitor_trigger := move_sl_to_entry_when_tp_hit cfg in
  let rm_type := fst (position_policy args_size cfg) in
  let pos_value := snd (position_policy args_size cfg) in
  let symbol := "B-BTC_USDT" in
  let risk_manager := risk_manager_of args_size cfg in
  let w := emit (set_leverage symbol leverage) w in
  let w := emit (get_klines (SStr symbol) "15m" 5) w in
  match List.rev (frame a) with
  | last_row :: prev_candle :: _ =>
      let current_price := close last_row in
      let w := emit (get_balance "USDT") w in
      match size_position risk_manager rm_type pos_value (balance a) current_price leverage with
      | None => (Crashed, w)
      | Some qty =>
          let qty := round_to_step qty in
          if Qle_bool qty 0 then (QuantityTooSmall, w)
          else
            let sl_price :=
              RiskManager.get_candle_based_stop_loss current_price side
                (high prev_candle) (low prev_candle) sl_multiplier in
            let targets :=
              RiskManager.calculate_fixed_point_targets current_price side tp_points in
            let w := emit (show_plan side qty current_price sl_price targets) w in
            if negb (mem (confirm a) ["yes"; "y"]) then (Declined, w)
            else
              let order_side := if String.eqb side "LONG" then "buy" else "sell" in
              let w := emit (place_order (SStr symbol) order_side (SFloat qty) "MARKET"
                               VNone ∅) w in
              if negb (has_id (order a)) then (MarketOrderFailed, w)
              else
                let entry_price_executed := entry_price_executed current_price (order a) in
                let sl_price :=
                  RiskManager.get_candle_based_stop_loss entry_price_executed side
                    (high prev_candle) (low prev_candle) sl_multiplier in
                let targets :=
                  RiskManager.calculate_fixed_point_targets entry_price_executed side
                    tp_points in
                let sl_side := if String.eqb order_side "buy" then "sell" else "buy" in
                let w := emit (place_order (SStr symbol) sl_side (SFloat qty) "STOP_MARKET"
                                 VNone {[ "stopPrice" := VScalar (SFloat sl_price) ]}) w in
                let sl_order_id :=
                  match sl_resp a with
                  | Some d => if (size d =? 0)%nat then SNone else resp_get d "id"
                  | None => SNone
                  end in
                let chunk_qty := Py.fmt3 (qty / 4) in
                let '(tp_ids, w) :=
                  place_targets symbol sl_side chunk_qty (tp_resp a) 0 targets [] w in
                let trade_data :=
                  trade_record (now a) symbol side qty entry_price_executed
                    (VScalar sl_order_id) tp_ids targets monitor_trigger in
                let w := {| file := add_trade trade_data (file w); log := log w |} in
                monitor_trade trade_data (ticks a) w
      end
  | _ => (Crashed, w)                 (* df['close'].iloc[-1] or df.iloc[-2] fails *)
  end.

(** [main()], with the command line already split into the positional
    [side] and the optional [--size]. *)
Definition main (args_side : string) (args_size : option Q) (cfg : config)
    (a : answers) (w : world) : exit * world :=
  if negb (mem args_side choices) then (BadArguments, w)
  else
    let action := Py.upper args_side in
    if negb (api_keys a) then (MissingApiKeys, w)
    else if String.eqb action "RESUME" then
      let trades := load_trades (file w) in
      match last trades with
      | None => (NoOpenTrades, w)               (* not trades *)
      | Some t => monitor_trade t (ticks a) w   (* trades[-1] *)
      end
    else open_trade action args_size cfg a w.

(** *** Observers used in the statements *)

(** The calls [monitor_trade] can make: the price fetch and the three
    calls of the breakeven migration. *)
Definition is_monitor_call (c : call) : bool :=
  match c with
  | get_klines _ _ _ | edit_order _ _ | cancel_order _ => true
  | place_order _ _ _ order_type _ _ => String.eqb order_type "STOP_MARKET"
  | _ => false
  end.

(** The actions that open a trade (all of [choices] but RESUME). *)
Definition new_trade_sides : list string := ["LONG"; "SHORT"; "long"; "short"].

(** The calls of an entry up to the request for the balance. *)
Definition sizing_calls (cfg : config) : list call :=
  [ set_leverage "B-BTC_USDT" (leverage cfg);
    get_klines (SStr "B-BTC_USDT") "15m" 5;
    get_balance "USDT" ].

(** The three kinds of order placed by [main] when it opens a trade. *)
Definition entry_order (order_side : string) (qty : Q) : call :=
  place_order (SStr "B-BTC_USDT") order_side (SFloat qty) "MARKET" VNone ∅.

Definition stop_order (sl_side : string) (qty sl_price : Q) : call :=
  place_order (SStr "B-BTC_USDT") sl_side (SFloat qty) "STOP_MARKET" VNone
    {[ "stopPrice" := VScalar (SFloat sl_price) ]}.

Definition target_order (sl_side : string) (chunk_qty t : Q) : call :=
  place_order (SStr "B-BTC_USDT") sl_side (SFloat chunk_qty) "LIMIT" (SFloat t) ∅.

(** [q] is a multiple of the 0.001 step at most half a step from [x]:
    what rounding [x] to the step gives, whichever way an exact half
    goes. *)
Definition nearest_step (x q : Q) : Prop :=
  (exists k : Z, (q == inject_Z k * step_size)%Q)
  /\ (Qabs (q - x) <= step_size / 2)%Q.

(** "Every take-profit order is sized at [qty / n]". *)
Definition targets_split_evenly (qty : Q) (n : nat) (log : list call) : Prop :=
  forall symbol side q price params,
    In (place_order symbol side (SFloat q) "LIMIT" price params) log ->
    (q == qty / inject_Z (Z.of_nat n))%Q.

(** "The protective orders of this run carry prices other than those of
    the plan shown before the entry": the run, started with an empty log,
    shows a plan, enters, and places a stop or targets priced differently. *)
Definition replanned_differs (args_side : string) (args_size : option Q) (cfg : config)
    (a : answers) (f : trades_file) : Prop :=
  exists side qty price sl_price targets order_side sl_side chunk_qty sl_price' targets' ext,
    log (snd (main args_side args_size cfg a {| file := f; log := [] |}))
    = (sizing_calls cfg
       ++ [ show_plan side qty price sl_price targets;
            entry_order order_side qty;
            stop_order sl_side qty sl_price' ]
       ++ List.map (target_order sl_side chunk_qty) targets' ++ ext)%list
    /\ Forall (fun c => is_monitor_call c = true) ext
    /\ (sl_price' <> sl_price \/ targets' <> targets).

End Supervisor.

(** ** The end-to-end scenario of the specification, as data *)

Module Scenario.

Import Supervisor.

Definition row (price : Q) : candle := {| high := price; low := price; close := price |}.

Definition reply_id (id : string) : response := Some {[ "id" := SStr id ]}.
Definition accepted : response := Some {[ "code" := SInt 200 ]}.
Definition refused : response := Some {[ "code" := SInt 400 ]}.

(** A pass of the monitor that sees [price]. *)
Definition pass (price : Q) (edit place : response) : tick :=
  {| klines := [row price]; edit_resp := edit; new_sl_resp := place |}.

(** Entry 50000, LONG, fixed points [300, 500, 800, 1000], trigger level 1. *)
Definition symbol : value := SStr "B-BTC_USDT".
Definition targets : value := VList [SFloat 50300; SFloat 50500; SFloat 50800; SFloat 51000].
Definition entry_price : value := SFloat 50000.
Definition side : value := SStr "LONG".
Definition qty : value := SFloat (4 # 1000).
Definition trade_id : value := SStr "1700000000".

Definition trade : gmap string value :=
  trade_record 1700000000 "B-BTC_USDT" "LONG" (4 # 1000) 50000 (SStr "SL-1")
    [SStr "TP-1"; SStr "TP-2"; SStr "TP-3"; SStr "TP-4"]
    [50300; 50500; 50800; 51000]%Q (SInt 1).

Definition start : locals := {| sl_order_id := SStr "SL-1"; sl_moved := VFalse |}.
Definition stored : world := {| file := Store.Holds [trade]; log := [] |}.

(** The previous candle spans 50000-50100 and the last close is 50000. *)
Definition market (confirm : string) (ticks : list tick) : answers := {|
  api_keys := true;
  frame := [ {| high := 50100; low := 50000; close := 50050 |};
             {| high := 50020; low := 49990; close := 50000 |} ];
  balance := 1000;
  confirm := confirm;
  order := reply_id "E-1";
  sl_resp := reply_id "SL-1";
  tp_resp := fun _ => reply_id "TP";
  now := 1700000000;
  ticks := ticks
|}.

Definition fresh : world := {| file := Store.Absent; log := [] |}.

End Scenario.

(** ** [src/execution.py]: the request bodies built by [ExecutionClient] *)

Module ExecutionClient.

(** [str.lower()] on ASCII text. *)
Definition ascii_lower (c : ascii) : ascii :=
  let n := nat_of_ascii c in
  if (65 <=? n)%nat && (n <=? 90)%nat then ascii_of_nat (n + 32) else c.

Fixpoint lower (s : string) : string :=
  match s with
  | EmptyString => EmptyString
  | String c rest => String (ascii_lower c) (lower rest)
  end.

(** [x is None] *)
Definition is_none (v : value) : bool :=
  match v with
  | VScalar SNone => true
  | _ => false
  end.

(** [place_order]: the [order_payload] dictionary sent under ["order"]. *)
Definition order_payload (symbol : value) (side : string) (qty : value)
    (order_type : string) (price : value) (params : gmap string value)
    : gmap string value :=
  let dcx_type :=
    if String.eqb (Py.upper order_type) "MARKET" then "market_order" else "limit_order" in
  let stop_price_val := dict_get params "stopPrice" VNone in
  let order_payload : gmap string value :=
    <[ "side" := VScalar (SStr (lower side)) ]>
    (<[ "pair" := symbol ]>
    (<[ "order_type" := VScalar (SStr dcx_type) ]>
    (<[ "total_quantity" := qty ]> ∅))) in
  let order_payload :=
    if truthy price then <[ "price" := price ]> order_payload else order_payload in
  let order_payload :=
    if truthy stop_price_val
    then <[ "stop_price" := stop_price_val ]> order_payload
    else order_payload in
  let order_payload :=
    if String.eqb order_type "STOP_MARKET"
    then <[ "order_type" := VScalar (SStr "market_order") ]> order_payload
    else order_payload in
  order_payload.

(** [edit_order]: the request body. *)
Definition edit_body (order_id new_price new_stop_price new_qty : value)
    : gmap string value :=
  let body : gmap string value := {[ "id" := order_id ]} in
  let body := if is_none new_price then body else <[ "price" := new_price ]> body in
  let body :=
    if is_none new_stop_price then body
    else <[ "stop_price" := new_stop_price ]>
           (<[ "stop_loss_price" := new_stop_price ]> body) in
  let body :=
    if is_none new_qty then body else <[ "total_quantity" := new_qty ]> body in
  body.

(** The body that a logged order call of the supervisor turns into. *)
Definition body_of (c : Supervisor.call) : option (gmap string value) :=
  match c with
  | Supervisor.place_order symbol side qty order_type price params =>
      Some (order_payload symbol side qty order_type price params)
  | Supervisor.edit_order order_id new_stop_price =>
      Some (edit_body order_id VNone new_stop_price VNone)
  | Supervisor.cancel_order order_id => Some {[ "id" := order_id ]}
  | _ => None
  end.

End ExecutionClient.

(** ** Relations used to state what a run keeps *)

Module Invariants.

Import Store Supervisor.

(** Two states of the trade file hold the same number of records and,
    record by record, agree on every field outside [keys]. *)
Definition fields_kept (keys : list string) (f f' : trades_file) : Prop :=
  Forall2 (fun t t' : gmap string value => forall k, ~ In k keys -> t' !! k = t !! k)
    (load_trades f) (load_trades f').

(** The ids of the replies that carry one, among the replies numbered
    [first], [first + 1], ..., [first + n - 1], in that order. *)
Definition placed_ids (replies : nat -> response) (first n : nat) : list scalar :=
  List.map id_of (List.filter has_id (List.map replies (List.seq first n))).

(** [resp.get('id') if resp else None] *)
Definition id_or_none (resp : response) : scalar :=
  match resp with
  | Some d => if (size d =? 0)%nat then SNone else resp_get d "id"
  | None => SNone
  end.

(** The two fields the monitor writes. *)
Definition monitor_keys : list string := ["sl_moved"; "sl_order_id"].

(** A list of numbers, as [main] stores the targets. *)
Definition numeric_list (v : value) : Prop :=
  exists l, v = VList l /\ Forall (fun s => is_Some (as_num s)) l.

(** A trigger level that is an [int] (or a [bool], which is one). *)
Definition integer_level (v : value) : Prop :=
  (exists z, v = VScalar (SInt z)) \/ (exists b, v = VScalar (SBool b)).

End Invariants.

(** * Properties *)

Import Store Supervisor.

(** ** Rounding *)

Section Rounding.

Lemma round_nearest (x : Q) : (Qabs (inject_Z (Py.round x) - x) <= 1 # 2)%Q.
Proof.
  unfold Py.round.
  pose proof (Qfloor_le x) as Hlo. pose proof (Qlt_floor x) as Hhi.
  rewrite inject_Z_plus in Hhi. change (inject_Z 1) with 1%Q in Hhi.
  destruct (x - inject_Z (Qfloor x) ?= 1 # 2)%Q eqn:E.
  - apply Qeq_alt in E.
    destruct (Z.even (Qfloor x));
      [| rewrite inject_Z_plus; change (inject_Z 1) with 1%Q];
      apply Qabs_case; intros; lra.
  - apply Qlt_alt in E. apply Qabs_case; intros; lra.
  - apply Qgt_alt in E. rewrite inject_Z_plus. change (inject_Z 1) with 1%Q.
    apply Qabs_case; intros; lra.
Qed.

Lemma round_of_integer (x : Q) (k : Z) : (x == inject_Z k)%Q -> Py.round x = k.
Proof.
  intros H. unfold Py.round.
  assert (Hf : Qfloor x = k) by (rewrite H; apply Qfloor_Z).
  rewrite Hf.
  assert (E : (x - inject_Z k ?= 1 # 2)%Q = Lt).
  { apply (proj1 (Qlt_alt _ _)). lra. }
  now rewrite E.
Qed.

(** On a tie the even neighbour is chosen. *)
Lemma round_tie_even (x : Q) (k : Z) :
  (x == inject_Z k + (1 # 2))%Q -> Z.even (Py.round x) = true.
Proof.
  intros H. unfold Py.round.
  assert (Hf : Qfloor x = k).
  { symmetry. apply Z.le_antisymm.
    - rewrite <- (Qfloor_Z k) at 1. apply Qfloor_resp_le. lra.
    - assert (Hlt : (inject_Z (Qfloor x) < inject_Z (k + 1))%Q).
      { eapply Qle_lt_trans; [apply Qfloor_le |].
        rewrite inject_Z_plus. change (inject_Z 1) with 1%Q. lra. }
      rewrite <- Zlt_Qlt in Hlt. lia. }
  rewrite Hf.
  assert (E : (x - inject_Z k ?= 1 # 2)%Q = Eq).
  { apply (proj1 (Qeq_alt _ _)). lra. }
  rewrite E. destruct (Z.even k) eqn:Ek; [exact Ek |].
  rewrite Z.even_add, Ek. reflexivity.
Qed.

(** The second rounding of [round_to_step], through the three-digit
    format, leaves a multiple of 0.001 as it is. *)
Lemma round_to_step_steps (qty : Q) :
  (round_to_step qty == inject_Z (Py.round (qty / step_size)) * step_size)%Q.
Proof.
  unfold round_to_step, Py.fmt3.
  set (k := Py.round (qty / step_size)).
  rewrite (round_of_integer (inject_Z k * step_size * 1000) k).
  - unfold step_size. field.
  - unfold step_size. field.
Qed.

End Rounding.

(** ** Risk planner *)

(** C7. For LONG and SHORT, [calculate_targets] returns exactly four
    targets; when the risk distance [|entry - stop|] is positive they lie at
    1, 2, 3 and 4 times that distance from the entry, strictly increasing
    for LONG and strictly decreasing for SHORT; when it is zero they are
    four copies of the entry price. *)
Theorem calculate_targets_risk_multiples (entry sl : Q) (d : string) :
  d = "LONG" \/ d = "SHORT" ->
  let rd := Qabs (entry - sl) in
  let sgn := if String.eqb d "LONG" then 1%Q else (-1)%Q in
  ((0 < rd)%Q ->
     exists t1 t2 t3 t4,
       RiskManager.calculate_targets entry d sl = [t1; t2; t3; t4]
       /\ (t1 == entry + sgn * (1 * rd))%Q /\ (t2 == entry + sgn * (2 * rd))%Q
       /\ (t3 == entry + sgn * (3 * rd))%Q /\ (t4 == entry + sgn * (4 * rd))%Q
       /\ (d = "LONG" -> (entry < t1)%Q /\ (t1 < t2)%Q /\ (t2 < t3)%Q /\ (t3 < t4)%Q)
       /\ (d = "SHORT" -> (t1 < entry)%Q /\ (t2 < t1)%Q /\ (t3 < t2)%Q /\ (t4 < t3)%Q))
  /\ ((rd == 0)%Q ->
        RiskManager.calculate_targets entry d sl = [entry; entry; entry; entry]).
Proof.
  intros Hd rd sgn. split.
  - intros Hpos.
    assert (Hne : Qeq_bool rd 0 = false).
    { destruct (Qeq_bool rd 0) eqn:E; [| reflexivity].
      apply Qeq_bool_iff in E. lra. }
    unfold RiskManager.calculate_targets. fold rd. rewrite Hne.
    change (Py.range 1 5) with [1; 2; 3; 4]%Z. cbn [List.map].
    change (inject_Z 1) with 1%Q. change (inject_Z 2) with 2%Q.
    change (inject_Z 3) with 3%Q. change (inject_Z 4) with 4%Q.
    destruct Hd as [-> | ->]; subst sgn.
    + change (String.eqb (Py.upper "LONG") "LONG") with true.
      change (String.eqb "LONG" "LONG") with true. cbv iota.
      do 4 eexists; (split; [reflexivity |]).
      repeat split; try discriminate; lra.
    + change (String.eqb (Py.upper "SHORT") "LONG") with false.
      change (String.eqb "SHORT" "LONG") with false. cbv iota.
      do 4 eexists; (split; [reflexivity |]).
      repeat split; try discriminate; lra.
  - intros Hz.
    unfold RiskManager.calculate_targets. fold rd.
    rewrite (proj2 (Qeq_bool_iff rd 0) Hz). reflexivity.
Qed.

Lemma calculate_targets_risk_multiples_witness :
  (exists t1 t2 t3 t4,
      RiskManager.calculate_targets 50000 "LONG" 49800 = [t1; t2; t3; t4]
      /\ (50000 < t1)%Q /\ (t1 < t2)%Q /\ (t2 < t3)%Q /\ (t3 < t4)%Q)
  /\ RiskManager.calculate_targets 50000 "SHORT" 50000
     = [50000; 50000; 50000; 50000]%Q.
Proof.
  split.
  - destruct (calculate_targets_risk_multiples 50000 49800 "LONG" (or_introl eq_refl))
      as [Hpos _].
    destruct (Hpos ltac:(reflexivity))
      as (t1 & t2 & t3 & t4 & Heq & _ & _ & _ & _ & Hlong & _).
    exists t1, t2, t3, t4. split; [exact Heq | exact (Hlong eq_refl)].
  - destruct (calculate_targets_risk_multiples 50000 50000 "SHORT" (or_intror eq_refl))
      as [_ Hzero].
    apply Hzero. reflexivity.
Defined.

(** ** Trade store *)

Lemma update_first_absent trade_id key val trades :
  id_absent trade_id trades -> update_first trade_id key val trades = None.
Proof.
  induction 1 as [| t rest Ht _ IH]; cbn [update_first]; [reflexivity |].
  now rewrite Ht, IH.
Qed.

Lemma filter_absent trade_id trades :
  id_absent trade_id trades ->
  List.filter (fun t => negb (value_eqb (dict_get t "id" VNone) trade_id)) trades = trades.
Proof.
  induction 1 as [| t rest Ht _ IH]; cbn [List.filter]; [reflexivity |].
  now rewrite Ht, IH.
Qed.

(** C9. For an id that no record of the collection carries, [update_trade]
    leaves the file as it is, and [delete_trade] leaves the collection as it
    is (it rewrites the file with the same records). Both are total
    functions of the file state: there is no failing case. *)
Theorem absent_id_update_delete_noop (trade_id : value) (key : string) (val : value)
    (f : trades_file) :
  id_absent trade_id (load_trades f) ->
  update_trade trade_id key val f = f
  /\ load_trades (delete_trade trade_id f) = load_trades f
  /\ (forall trades, f = Holds trades -> delete_trade trade_id f = f).
Proof.
  intros Habs. repeat split.
  - unfold update_trade. now rewrite (update_first_absent _ key val _ Habs).
  - unfold delete_trade, save_trades. cbn [load_trades]. now apply filter_absent.
  - intros trades ->. unfold delete_trade, save_trades. cbn [load_trades] in *.
    now rewrite filter_absent.
Qed.

Lemma absent_id_update_delete_noop_witness :
  let t : gmap string value := {[ "id" := VScalar (SStr "1700000000") ]} in
  let f := Holds [t] in
  update_trade (SStr "1700000001") "sl_moved" VTrue f = f
  /\ load_trades (delete_trade (SStr "1700000001") f) = load_trades f
  /\ (forall trades, f = Holds trades -> delete_trade (SStr "1700000001") f = f).
Proof.
  intros t f.
  apply (absent_id_update_delete_noop (SStr "1700000001") "sl_moved" VTrue f).
  repeat constructor.
Defined.

(** ** Monitoring loop *)

Lemma order_calls_emit (c : call) (w : world) :
  order_calls (log (emit c w))
  = (order_calls (log w) ++ (if is_order_call c then [c] else []))%list.
Proof.
  unfold order_calls, emit. cbn [log]. rewrite List.filter_app. cbn [List.filter].
  now destruct (is_order_call c).
Qed.

Section MonitorFacts.

Variables (symbol monitor_trigger_level targets entry_price side qty trade_id : value).

Abbreviation iteration := (iteration symbol monitor_trigger_level targets entry_price side qty trade_id).
Abbreviation loop := (loop symbol monitor_trigger_level targets entry_price side qty trade_id).
Abbreviation migrations := (migrations symbol monitor_trigger_level targets entry_price side qty trade_id).
Abbreviation move_stop := (move_stop symbol entry_price side qty trade_id).
Abbreviation trigger_observed := (trigger_observed monitor_trigger_level targets side).

(** The guard: with the flag set, the trigger is never observed. *)
Lemma trigger_not_observed_after_move (l : locals) (curr_price : Q) :
  truthy (sl_moved l) = true -> trigger_observed l curr_price <> Some true.
Proof.
  intros Hm. unfold Supervisor.trigger_observed.
  destruct (trigger_enabled monitor_trigger_level) as [[|]|]; try discriminate.
  now rewrite Hm.
Qed.

Lemma trigger_observed_unset (l : locals) (curr_price : Q) :
  trigger_observed l curr_price = Some true -> truthy (sl_moved l) = false.
Proof.
  intros H. destruct (truthy (sl_moved l)) eqn:E; [| reflexivity].
  now destruct (trigger_not_observed_after_move l curr_price E).
Qed.

(** A pass made with the flag set fetches the price and does nothing else. *)
Lemma iteration_after_move (t : tick) (l : locals) (w : world) :
  truthy (sl_moved l) = true ->
  iteration t l w = inr (l, emit (get_klines symbol "1m" 1) w)
  \/ iteration t l w = inl (emit (get_klines symbol "1m" 1) w).
Proof.
  intros Hm. unfold Supervisor.iteration.
  destruct (last (klines t)) as [row|]; [| now left].
  pose proof (trigger_not_observed_after_move l (close row) Hm) as Hno.
  destruct (trigger_observed l (close row)) as [[|]|]; [congruence | now left | now right].
Qed.

Lemma loop_after_move (ticks : list tick) (l : locals) (w : world) :
  truthy (sl_moved l) = true ->
  fst (snd (loop ticks l w)) = l
  /\ file (snd (snd (loop ticks l w))) = file w
  /\ order_calls (log (snd (snd (loop ticks l w)))) = order_calls (log w).
Proof.
  intros Hm. revert w. induction ticks as [| t ticks IH]; intros w; cbn [Supervisor.loop].
  - now cbn.
  - destruct (iteration_after_move t l w Hm) as [-> | ->].
    + destruct (IH (emit (get_klines symbol "1m" 1) w)) as (Hl & Hf & Ho).
      rewrite Hl, Hf, Ho, order_calls_emit. cbn. now rewrite List.app_nil_r.
    + cbn [fst snd]. rewrite order_calls_emit. cbn. now rewrite List.app_nil_r.
Qed.

Lemma migrations_after_move (ticks : list tick) (l : locals) (w : world) :
  truthy (sl_moved l) = true -> migrations ticks l w = 0%nat.
Proof.
  intros Hm. revert w. induction ticks as [| t ticks IH]; intros w;
    cbn [Supervisor.migrations]; [reflexivity |].
  destruct (iteration_after_move t l w Hm) as [-> | ->]; [| reflexivity].
  rewrite IH. unfold migrated. now rewrite Hm.
Qed.

Lemma migrations_at_most_one (ticks : list tick) (l : locals) (w : world) :
  (migrations ticks l w <= 1)%nat.
Proof.
  revert l w. induction ticks as [| t ticks IH]; intros l w;
    cbn [Supervisor.migrations]; [lia |].
  destruct (iteration t l w) as [w' | [l' w']]; [lia |].
  unfold migrated. destruct (truthy (sl_moved l')) eqn:Hm'.
  - rewrite (migrations_after_move ticks l' w' Hm').
    destruct (negb (truthy (sl_moved l))); cbn; lia.
  - rewrite Bool.andb_false_r. apply IH.
Qed.

(** A run over [ticks1 ++ ticks2] is the run over [ticks1], continued over
    [ticks2] unless an exception ended it. *)
Lemma loop_app (ticks1 ticks2 : list tick) (l : locals) (w : world) :
  loop (ticks1 ++ ticks2)%list l w
  = match loop ticks1 l w with
    | (Stopped, (l1, w1)) => loop ticks2 l1 w1
    | r => r
    end.
Proof.
  revert l w. induction ticks1 as [| t ticks1 IH]; intros l w.
  - reflexivity.
  - cbn [app Supervisor.loop].
    destruct (iteration t l w) as [w' | [l' w']]; [reflexivity | apply IH].
Qed.

Lemma loop_exit (ticks : list tick) (l : locals) (w : world) :
  fst (loop ticks l w) = Stopped \/ fst (loop ticks l w) = Crashed.
Proof.
  revert l w. induction ticks as [| t ticks IH]; intros l w; cbn [Supervisor.loop].
  - now left.
  - destruct (iteration t l w) as [w' | [l' w']]; [now right | apply IH].
Qed.

End MonitorFacts.

(** C1. Breakeven migration fires at most once. Take any run of the loop
    and any later point of the same run: if [sl_moved] is set at the
    earlier point, then at the later point it is still set, the log holds no
    further edit, cancel or placement call, and the trade file is the same.
    Whatever the answers of the gateway, at most one pass of a run sets the
    flag; this covers consecutive passes that both see the trigger price. *)
Theorem breakeven_migration_at_most_once
    (symbol monitor_trigger_level targets entry_price side qty trade_id : value)
    (ticks1 ticks2 : list tick) (l : locals) (w : world) :
  let earlier :=
    loop symbol monitor_trigger_level targets entry_price side qty trade_id
      ticks1 l w in
  let later :=
    loop symbol monitor_trigger_level targets entry_price side qty trade_id
      (ticks1 ++ ticks2)%list l w in
  (truthy (sl_moved (fst (snd earlier))) = true ->
     truthy (sl_moved (fst (snd later))) = true
     /\ fst (snd later) = fst (snd earlier)
     /\ order_calls (log (snd (snd later))) = order_calls (log (snd (snd earlier)))
     /\ file (snd (snd later)) = file (snd (snd earlier)))
  /\ (migrations symbol monitor_trigger_level targets entry_price side qty trade_id
        (ticks1 ++ ticks2)%list l w <= 1)%nat.
Proof.
  cbv zeta. split; [| apply migrations_at_most_one].
  rewrite loop_app.
  destruct (loop symbol monitor_trigger_level targets entry_price side qty trade_id
              ticks1 l w) as [e1 [l1 w1]] eqn:E1.
  cbn [fst snd]. intros Hm.
  destruct e1; try (repeat split; first [exact Hm | reflexivity]).
  destruct (loop_after_move symbol monitor_trigger_level targets entry_price side qty
              trade_id ticks2 l1 w1 Hm) as (Hl & Hf & Ho).
  rewrite Hl. repeat split; assumption.
Qed.

Lemma breakeven_migration_at_most_once_witness :
  let run ticks :=
    loop Scenario.symbol (SInt 1) Scenario.targets Scenario.entry_price Scenario.side
      Scenario.qty Scenario.trade_id ticks Scenario.start Scenario.stored in
  let ticks1 := [Scenario.pass 50300 Scenario.accepted None] in
  let ticks2 := [Scenario.pass 50500 Scenario.accepted None;
                 Scenario.pass 51000 Scenario.accepted None] in
  truthy (sl_moved (fst (snd (run ticks1)))) = true
  /\ order_calls (log (snd (snd (run (ticks1 ++ ticks2)%list))))
     = [edit_order (SStr "SL-1") (SFloat 50000)].
Proof.
  intros run ticks1 ticks2.
  assert (Hset : truthy (sl_moved (fst (snd (run ticks1)))) = true) by reflexivity.
  split; [exact Hset |].
  destruct (breakeven_migration_at_most_once Scenario.symbol (SInt 1) Scenario.targets
              Scenario.entry_price Scenario.side Scenario.qty Scenario.trade_id
              ticks1 ticks2 Scenario.start Scenario.stored) as [Hfrozen _].
  destruct (Hfrozen Hset) as (_ & _ & Hcalls & _).
  etransitivity; [exact Hcalls | vm_compute; reflexivity].
Defined.

(** C4. A pass that sees the trigger, whose edit is refused and whose
    replacement placement returns no order identifier, ends with the
    loop's variables and the trade file exactly as they were ([sl_moved]
    still unset in both); the log has grown by the price fetch and the
    edit, cancel and placement calls. The next pass that sees the trigger
    starts the migration again with the same edit call. *)
Theorem failed_migration_keeps_flag_unset
    (symbol monitor_trigger_level targets entry_price side qty trade_id : value)
    (t : tick) (row : candle) (l : locals) (w : world) :
  last (klines t) = Some row ->
  trigger_observed monitor_trigger_level targets side l (close row) = Some true ->
  edit_succeeded (edit_resp t) = false ->
  has_id (new_sl_resp t) = false ->
  let sl_side := if value_eqb side (SStr "LONG") then "sell" else "buy" in
  let w' :=
    {| file := file w;
       log := (log w ++
               [ get_klines symbol "1m" 1;
                 edit_order (sl_order_id l) entry_price;
                 cancel_order (sl_order_id l);
                 place_order symbol sl_side qty "STOP_MARKET" VNone
                   {[ "stopPrice" := entry_price ]} ])%list |} in
  iteration symbol monitor_trigger_level targets entry_price side qty trade_id t l w
    = inr (l, w')
  /\ truthy (sl_moved l) = false
  /\ (forall (t2 : tick) (row2 : candle),
        last (klines t2) = Some row2 ->
        trigger_observed monitor_trigger_level targets side l (close row2) = Some true ->
        exists l2 w2 rest,
          iteration symbol monitor_trigger_level targets entry_price side qty trade_id
            t2 l w' = inr (l2, w2)
          /\ log w2 = (log w' ++ get_klines symbol "1m" 1
                        :: edit_order (sl_order_id l) entry_price :: rest)%list).
Proof.
  intros Hrow Hhit Hedit Hplace sl_side w'. split; [| split].
  - unfold iteration, move_stop. rewrite Hrow, Hhit, Hedit. fold sl_side.
    rewrite Hplace. unfold emit. cbn [file log]. subst w'.
    rewrite <- !List.app_assoc. reflexivity.
  - eapply trigger_observed_unset; eassumption.
  - intros t2 row2 Hrow2 Hhit2.
    unfold iteration. rewrite Hrow2, Hhit2.
    destruct (move_stop symbol entry_price side qty trade_id t2 l
                (emit (get_klines symbol "1m" 1) w')) as [l2 w2] eqn:Hmove.
    unfold move_stop in Hmove.
    destruct (edit_succeeded (edit_resp t2)).
    + injection Hmove as <- <-. do 2 eexists. exists []. split; [reflexivity |].
      unfold persist, emit. cbn [file log]. now rewrite <- List.app_assoc.
    + fold sl_side in Hmove.
      destruct (has_id (new_sl_resp t2)); injection Hmove as <- <-;
        do 3 eexists; (split; [reflexivity |]);
        unfold persist, emit; cbn [file log];
        rewrite <- !List.app_assoc; reflexivity.
Qed.

Lemma failed_migration_keeps_flag_unset_witness :
  let t := Scenario.pass 50300 Scenario.refused None in
  iteration Scenario.symbol (SInt 1) Scenario.targets Scenario.entry_price Scenario.side
    Scenario.qty Scenario.trade_id t Scenario.start Scenario.stored
  = inr (Scenario.start,
         {| file := file Scenario.stored;
            log := [ get_klines Scenario.symbol "1m" 1;
                     edit_order (SStr "SL-1") Scenario.entry_price;
                     cancel_order (SStr "SL-1");
                     place_order Scenario.symbol "sell" Scenario.qty "STOP_MARKET" VNone
                       {[ "stopPrice" := Scenario.entry_price ]} ] |}).
Proof.
  intros t.
  exact (proj1 (failed_migration_keeps_flag_unset Scenario.symbol (SInt 1)
                  Scenario.targets Scenario.entry_price Scenario.side Scenario.qty
                  Scenario.trade_id t (Scenario.row 50300) Scenario.start
                  Scenario.stored eq_refl eq_refl eq_refl eq_refl)).
Defined.

(** C10. A trade record (one that names its symbol) whose [sl_order_id] is
    missing or null is not monitored: [monitor_trade] returns before the
    loop, whatever the trigger level, the targets and the prices that
    would have been seen; the log and the trade file are untouched. *)
Theorem monitor_without_stop_loss_id (trade : gmap string value) (ticks : list tick)
    (w : world) :
  is_Some (trade !! "symbol") ->
  trade !! "sl_order_id" = None \/ trade !! "sl_order_id" = Some VNone ->
  monitor_trade trade ticks w = (NoStopLossId, w).
Proof.
  intros [sym Hsym] Hid. unfold monitor_trade. rewrite Hsym.
  assert (Hfalsy : truthy (dict_get trade "sl_order_id" VNone) = false).
  { unfold dict_get. now destruct Hid as [-> | ->]. }
  now rewrite Hfalsy.
Qed.

Lemma monitor_without_stop_loss_id_witness :
  monitor_trade (<[ "sl_order_id" := VNone ]> Scenario.trade)
    [Scenario.pass 50300 Scenario.accepted None] Scenario.stored
  = (NoStopLossId, Scenario.stored).
Proof.
  apply monitor_without_stop_loss_id.
  - eexists. reflexivity.
  - right. reflexivity.
Defined.

(** ** What a run appends to the log *)

Lemma world_eta (w : world) : {| file := file w; log := log w |} = w.
Proof. now destruct w. Qed.

Section MonitorLog.

Variables (symbol monitor_trigger_level targets entry_price side qty trade_id : value).

Lemma iteration_log (t : tick) (l : locals) (w : world) :
  exists ext,
    Forall (fun c => is_monitor_call c = true) ext
    /\ match iteration symbol monitor_trigger_level targets entry_price side qty
               trade_id t l w with
       | inl w' => log w' = (log w ++ ext)%list
       | inr (_, w') => log w' = (log w ++ ext)%list
       end.
Proof.
  unfold iteration.
  destruct (last (klines t)) as [row|].
  2:{ exists [get_klines symbol "1m" 1]. split; [repeat constructor | reflexivity]. }
  destruct (trigger_observed monitor_trigger_level targets side l (close row))
    as [[|]|].
  - unfold move_stop.
    destruct (edit_succeeded (edit_resp t)); [| destruct (has_id (new_sl_resp t))];
      eexists; (split; [| unfold persist, emit; cbn [file log];
                          rewrite <- ?List.app_assoc; reflexivity]);
      repeat constructor.
  - exists [get_klines symbol "1m" 1]. split; [repeat constructor | reflexivity].
  - exists [get_klines symbol "1m" 1]. split; [repeat constructor | reflexivity].
Qed.

Lemma loop_log (ticks : list tick) (l : locals) (w : world) :
  exists ext,
    Forall (fun c => is_monitor_call c = true) ext
    /\ log (snd (snd (loop symbol monitor_trigger_level targets entry_price side qty
                        trade_id ticks l w))) = (log w ++ ext)%list.
Proof.
  revert l w. induction ticks as [| t ticks IH]; intros l w; cbn [loop].
  - exists []. split; [constructor | cbn; now rewrite List.app_nil_r].
  - destruct (iteration_log t l w) as (ext1 & Hext1 & Hlog1).
    destruct (iteration symbol monitor_trigger_level targets entry_price side qty
                trade_id t l w) as [w' | [l' w']].
    + exists ext1. now split.
    + destruct (IH l' w') as (ext2 & Hext2 & Hlog2).
      exists (ext1 ++ ext2)%list. split; [now apply Forall_app |].
      now rewrite Hlog2, Hlog1, List.app_assoc.
Qed.

End MonitorLog.

Lemma monitor_trade_log (trade : gmap string value) (ticks : list tick) (w : world) :
  exists ext,
    Forall (fun c => is_monitor_call c = true) ext
    /\ log (snd (monitor_trade trade ticks w)) = (log w ++ ext)%list.
Proof.
  unfold monitor_trade.
  destruct (trade !! "symbol") as [symbol|].
  2:{ exists []. split; [constructor | cbn; now rewrite List.app_nil_r]. }
  destruct (negb (truthy (dict_get trade "sl_order_id" VNone))).
  { exists []. split; [constructor | cbn; now rewrite List.app_nil_r]. }
  match goal with
  | |- context [loop ?s ?m ?tg ?e ?sd ?q ?i ticks ?l w] =>
      destruct (loop_log s m tg e sd q i ticks l w) as (ext & Hext & Hlog);
      destruct (loop s m tg e sd q i ticks l w) as [e' [l' w']]
  end.
  exists ext. now split.
Qed.

Lemma place_targets_world (sl_side : string) (chunk_qty : Q) (replies : nat -> response)
    (targets : list Q) (i : nat) (tp_ids : list scalar) (w : world) :
  snd (place_targets "B-BTC_USDT" sl_side chunk_qty replies i targets tp_ids w)
  = {| file := file w;
       log := (log w ++ List.map (target_order sl_side chunk_qty) targets)%list |}.
Proof.
  revert i tp_ids w. induction targets as [| t rest IH]; intros i tp_ids w;
    cbn [place_targets List.map].
  - rewrite List.app_nil_r. symmetry. apply world_eta.
  - rewrite IH. unfold emit. cbn [file log]. now rewrite <- List.app_assoc.
Qed.

(** ** Opening a trade *)

Lemma main_opens_trade (args_side : string) (args_size : option Q) (cfg : config)
    (a : answers) (w : world) :
  mem args_side new_trade_sides = true ->
  api_keys a = true ->
  main args_side args_size cfg a w = open_trade (Py.upper args_side) args_size cfg a w.
Proof.
  intros Hside Hkeys. unfold main. rewrite Hkeys.
  unfold mem, new_trade_sides in Hside. cbn [List.existsb] in Hside.
  repeat (apply Bool.orb_prop in Hside; destruct Hside as [Hside | Hside]);
    try discriminate; apply String.eqb_eq in Hside; subst args_side; reflexivity.
Qed.

Section OpenTrade.

Variables (side : string) (args_size : option Q) (cfg : config) (a : answers) (w : world).
Variables (older : list candle) (prev_candle last_row : candle) (requested : Q).

Hypothesis Hframe : frame a = (older ++ [prev_candle; last_row])%list.
Hypothesis Hsized :
  size_position (risk_manager_of args_size cfg) (fst (position_policy args_size cfg))
    (snd (position_policy args_size cfg)) (balance a) (close last_row) (leverage cfg)
  = Some requested.

Lemma rev_frame : List.rev (frame a) = last_row :: prev_candle :: List.rev older.
Proof. rewrite Hframe, List.rev_app_distr. reflexivity. Qed.

Lemma open_trade_too_small :
  Qle_bool (round_to_step requested) 0 = true ->
  open_trade side args_size cfg a w
  = (QuantityTooSmall, {| file := file w; log := (log w ++ sizing_calls cfg)%list |}).
Proof.
  intros Hsmall. unfold open_trade. cbv zeta. rewrite rev_frame, Hsized, Hsmall.
  unfold emit, sizing_calls. cbn [file log]. now rewrite <- !List.app_assoc.
Qed.

Lemma open_trade_confirmed :
  Qle_bool (round_to_step requested) 0 = false ->
  mem (confirm a) ["yes"; "y"] = true ->
  has_id (order a) = true ->
  let qty := round_to_step requested in
  let price := close last_row in
  let sl_price :=
    RiskManager.get_candle_based_stop_loss price side (high prev_candle)
      (low prev_candle) (sl_candle_multiplier cfg) in
  let targets :=
    RiskManager.calculate_fixed_point_targets price side (tp_fixed_points cfg) in
  let order_side := if String.eqb side "LONG" then "buy" else "sell" in
  let sl_side := if String.eqb order_side "buy" then "sell" else "buy" in
  exists (sl_order_id : scalar) (tp_ids : list scalar),
    let record :=
      trade_record (now a) "B-BTC_USDT" side qty price (VScalar sl_order_id) tp_ids
        targets (move_sl_to_entry_when_tp_hit cfg) in
    open_trade side args_size cfg a w
    = monitor_trade record (ticks a)
        {| file := add_trade record (file w);
           log := (log w ++ sizing_calls cfg
                   ++ [ show_plan side qty price sl_price targets;
                        entry_order order_side qty;
                        stop_order sl_side qty sl_price ]
                   ++ List.map (target_order sl_side (Py.fmt3 (qty / 4))) targets)%list |}.
Proof.
  intros Hpos Hyes Hentry. unfold open_trade. cbv zeta.
  rewrite rev_frame, Hsized, Hpos, Hyes, Hentry. cbn [negb].
  unfold entry_price_executed.
  match goal with
  | |- context [place_targets ?s ?sd ?c ?r ?i ?tg ?ids ?w0] =>
      pose proof (place_targets_world sd c r tg i ids w0) as Hw;
      destruct (place_targets s sd c r i tg ids w0) as [tp_ids w1]
  end.
  cbn [snd] in Hw. subst w1.
  eexists. exists tp_ids. cbv zeta. cbn [file log].
  unfold emit, sizing_calls, entry_order, stop_order. cbn [file log].
  rewrite <- !List.app_assoc. reflexivity.
Qed.

End OpenTrade.

(** ** Resume *)

(** C8. With credentials present, RESUME on a non-empty collection monitors
    exactly the last record of the collection, which is the one added most
    recently, and does nothing else: the run is the run of [monitor_trade]
    on that record, so every call it makes is a price fetch or a call of the
    breakeven migration, never an entry or a target order. On an empty
    collection it returns at once and monitors nothing. *)
Theorem resume_monitors_most_recent_trade (args_size : option Q) (cfg : config)
    (a : answers) (w : world) :
  api_keys a = true ->
  (load_trades (file w) = [] ->
     main "RESUME" args_size cfg a w = (NoOpenTrades, w))
  /\ (forall older t,
        load_trades (file w) = (older ++ [t])%list ->
        main "RESUME" args_size cfg a w = monitor_trade t (ticks a) w)
  /\ (forall f t,
        file w = add_trade t f ->
        main "RESUME" args_size cfg a w = monitor_trade t (ticks a) w)
  /\ (exists ext,
        Forall (fun c => is_monitor_call c = true) ext
        /\ log (snd (main "RESUME" args_size cfg a w)) = (log w ++ ext)%list).
Proof.
  intros Hkeys.
  assert (Hmain : main "RESUME" args_size cfg a w
                  = match last (load_trades (file w)) with
                    | None => (NoOpenTrades, w)
                    | Some t => monitor_trade t (ticks a) w
                    end).
  { unfold main. rewrite Hkeys. reflexivity. }
  assert (Hlast : forall older t,
             load_trades (file w) = (older ++ [t])%list ->
             main "RESUME" args_size cfg a w = monitor_trade t (ticks a) w).
  { intros older t Hload. now rewrite Hmain, Hload, last_snoc. }
  repeat split.
  - intros Hempty. now rewrite Hmain, Hempty.
  - exact Hlast.
  - intros f t Hfile. apply (Hlast (load_trades f)). now rewrite Hfile.
  - rewrite Hmain. destruct (last (load_trades (file w))) as [t|].
    + apply monitor_trade_log.
    + exists []. split; [constructor | cbn; now rewrite List.app_nil_r].
Qed.

Lemma resume_monitors_most_recent_trade_witness :
  let a := Scenario.market "no" [Scenario.pass 50300 Scenario.accepted None] in
  let w := {| file := add_trade Scenario.trade (Holds [∅]); log := [] |} in
  main "RESUME" None default_config a w = monitor_trade Scenario.trade (ticks a) w
  /\ log (snd (main "RESUME" None default_config a w))
     = [ get_klines Scenario.symbol "1m" 1;
         edit_order (SStr "SL-1") Scenario.entry_price ].
Proof.
  intros a w.
  destruct (resume_monitors_most_recent_trade None default_config a w eq_refl)
    as (_ & _ & Hadded & _).
  split.
  - exact (Hadded (Holds [∅]) Scenario.trade eq_refl).
  - rewrite (Hadded (Holds [∅]) Scenario.trade eq_refl). vm_compute. reflexivity.
Defined.

(** ** Sizing *)

Lemma div_step (q : Q) : (q / step_size == q * 1000)%Q.
Proof. unfold step_size. field. Qed.

(** [round_to_step] gives a multiple of the step at most half a step from
    the quantity. *)
Lemma round_to_step_nearest (q : Q) : nearest_step q (round_to_step q).
Proof.
  pose proof (round_to_step_steps q) as Hk.
  pose proof (round_nearest (q / step_size)) as Hnear.
  pose proof (div_step q) as Hdiv.
  split; [exists (Py.round (q / step_size)); exact Hk |].
  set (k := Py.round (q / step_size)) in *.
  apply Qabs_Qle_condition in Hnear. destruct Hnear as [Hlo Hhi].
  rewrite Hdiv in Hlo, Hhi.
  assert (Hhalf : (step_size / 2 == 1 # 2000)%Q) by reflexivity.
  rewrite Hhalf. unfold step_size in Hk.
  apply Qabs_Qle_condition. split; lra.
Qed.

(** So does the three-digit format. *)
Lemma fmt3_nearest_step (x : Q) : nearest_step x (Py.fmt3 x).
Proof.
  split.
  - exists (Py.round (x * 1000)). unfold Py.fmt3, step_size. field.
  - unfold Py.fmt3.
    pose proof (round_nearest (x * 1000)) as Hnear.
    apply Qabs_Qle_condition in Hnear. destruct Hnear as [Hlo Hhi].
    set (k := inject_Z (Py.round (x * 1000))) in *.
    assert (Hdiv : (k / 1000 == k * (1 # 1000))%Q) by field.
    assert (Hhalf : (step_size / 2 == 1 # 2000)%Q) by reflexivity.
    rewrite Hdiv, Hhalf. apply Qabs_Qle_condition. split; lra.
Qed.

Lemma round_nonpositive (x : Q) : (Py.round x <= 0)%Z <-> (x <= 1 # 2)%Q.
Proof.
  unfold Py.round.
  pose proof (Qfloor_le x) as Hlo. pose proof (Qlt_floor x) as Hhi.
  rewrite inject_Z_plus in Hhi. change (inject_Z 1) with 1%Q in Hhi.
  set (f := Qfloor x) in *.
  assert (Hint : forall c : Z, (f <= c)%Z <-> (inject_Z f <= inject_Z c)%Q)
    by (intros c; rewrite Zle_Qle; reflexivity).
  assert (Hneg : (f <= -1)%Z -> (inject_Z f <= -1)%Q).
  { intros H. apply (proj1 (Hint (-1)%Z)) in H. exact H. }
  assert (Hzero : (f <= 0)%Z -> (inject_Z f <= 0)%Q).
  { intros H. apply (proj1 (Hint 0%Z)) in H. exact H. }
  assert (Hback : (inject_Z f < 1)%Q -> (f <= 0)%Z).
  { intros H. change 1%Q with (inject_Z 1) in H. rewrite <- Zlt_Qlt in H. lia. }
  assert (Hback' : (inject_Z f < 0)%Q -> (f <= -1)%Z).
  { intros H. change 0%Q with (inject_Z 0) in H. rewrite <- Zlt_Qlt in H. lia. }
  destruct (x - inject_Z f ?= 1 # 2)%Q eqn:E.
  - apply Qeq_alt in E. destruct (Z.even f) eqn:Hev.
    + split; intros H; [apply Hzero in H; lra | apply Hback; lra].
    + split; intros H.
      * assert (Hf : (f <= -1)%Z) by lia. apply Hneg in Hf. lra.
      * assert (Hf : (f <= 0)%Z) by (apply Hback; lra).
        assert (f <> 0)%Z by (intros ->; discriminate). lia.
  - apply Qlt_alt in E. split; intros H; [apply Hzero in H; lra | apply Hback; lra].
  - apply Qgt_alt in E. split; intros H.
    + assert (Hf : (f <= -1)%Z) by lia. apply Hneg in Hf. lra.
    + assert (Hf : (f <= -1)%Z) by (apply Hback'; lra). lia.
Qed.

Lemma round_to_step_nonpositive (q : Q) :
  Qle_bool (round_to_step q) 0 = true <-> (q <= 1 # 2000)%Q.
Proof.
  rewrite Qle_bool_iff, round_to_step_steps.
  pose proof (round_nonpositive (q / step_size)) as Hround.
  pose proof (div_step q) as Hdiv.
  set (k := Py.round (q / step_size)) in *.
  rewrite Hdiv in Hround. clear Hdiv. unfold step_size.
  rewrite (Zle_Qle k 0) in Hround. change (inject_Z 0) with 0%Q in Hround.
  destruct Hround as [Hto Hfrom]. split; intros H.
  - assert (Hk : (inject_Z k <= 0)%Q) by lra. apply Hto in Hk. lra.
  - assert (Hq : (q * 1000 <= 1 # 2)%Q) by lra. apply Hfrom in Hq. lra.
Qed.

(** C3 as stated fails: a requested quantity of 0.0016 is rounded to
    0.002, above the request, and the entry is placed for 0.002. *)
Lemma quantity_rounded_up_counterexample :
  let r := main "LONG" (Some (16 # 10000)) default_config
             (Scenario.market "yes" []) Scenario.fresh in
  round_to_step (16 # 10000) = 2 # 1000
  /\ ~ (round_to_step (16 # 10000) <= 16 # 10000)%Q
  /\ In (entry_order "buy" (2 # 1000)) (log (snd r)).
Proof.
  cbv zeta. split; [reflexivity | split].
  - intros H. apply Qle_bool_iff in H. vm_compute in H. discriminate.
  - vm_compute. tauto.
Qed.

(** C3, amended. Whatever the sizing policy, the quantity is rounded to a
    nearest multiple of the 0.001 step: the rounded quantity is a multiple
    of the step at most half a step from the computed one (above it or
    below it; nothing is said on which neighbour an exact half goes to).
    When the rounded quantity is not positive the attempt ends with
    "Quantity too small" after the leverage, candle and balance requests,
    before any order is submitted. *)
Theorem quantity_rounded_to_nearest_step (args_side : string) (args_size : option Q)
    (cfg : config) (a : answers) (w : world)
    (older : list candle) (prev_candle last_row : candle) (requested : Q) :
  mem args_side new_trade_sides = true ->
  api_keys a = true ->
  frame a = (older ++ [prev_candle; last_row])%list ->
  size_position (risk_manager_of args_size cfg) (fst (position_policy args_size cfg))
    (snd (position_policy args_size cfg)) (balance a) (close last_row) (leverage cfg)
  = Some requested ->
  let qty := round_to_step requested in
  (exists k : Z,
      (qty == inject_Z k * step_size)%Q
      /\ (Qabs (qty - requested) <= step_size / 2)%Q)
  /\ ((qty <= 0)%Q ->
        main args_side args_size cfg a w
        = (QuantityTooSmall,
           {| file := file w; log := (log w ++ sizing_calls cfg)%list |})
        /\ order_calls (log (snd (main args_side args_size cfg a w)))
           = order_calls (log w)).
Proof.
  intros Hside Hkeys Hframe Hsized qty. split.
  - destruct (round_to_step_nearest requested) as [[k Hk] Hnear].
    exists k. split; assumption.
  - intros Hsmall. apply Qle_bool_iff in Hsmall.
    rewrite (main_opens_trade _ _ _ _ _ Hside Hkeys).
    rewrite (open_trade_too_small _ _ _ _ _ _ _ _ _ Hframe Hsized Hsmall).
    split; [reflexivity |]. cbn [snd log].
    unfold order_calls. rewrite List.filter_app. cbn. now rewrite List.app_nil_r.
Qed.

Lemma quantity_rounded_to_nearest_step_witness :
  let a := Scenario.market "yes" [] in
  round_to_step (5 # 10000) = 0 # 1000
  /\ main "LONG" (Some (5 # 10000)) default_config a Scenario.fresh
     = (QuantityTooSmall,
        {| file := Absent; log := sizing_calls default_config |})
  /\ order_calls (log (snd (main "LONG" (Some (5 # 10000)) default_config a
                             Scenario.fresh))) = [].
Proof.
  intros a. split; [reflexivity |].
  destruct (quantity_rounded_to_nearest_step "LONG" (Some (5 # 10000)) default_config a
              Scenario.fresh [] {| high := 50100; low := 50000; close := 50050 |}
              {| high := 50020; low := 49990; close := 50000 |} (5 # 10000)
              eq_refl eq_refl eq_refl eq_refl) as [_ Hsmall].
  apply Hsmall. vm_compute. discriminate.
Defined.

(** ** Protective orders *)

(** C2 as stated fails: with the four default targets and a quantity of
    0.001, the stop-loss is placed for 0.001 and every target order for
    0.000, not for 0.001 / 4. *)
Lemma target_orders_not_quantity_over_targets_counterexample :
  let r := main "LONG" (Some (1 # 1000)) default_config
             (Scenario.market "yes" []) Scenario.fresh in
  List.length (tp_fixed_points default_config) = 4%nat
  /\ In (stop_order "sell" (1 # 1000) 49800) (log (snd r))
  /\ In (target_order "sell" (0 # 1000) 50300) (log (snd r))
  /\ ~ targets_split_evenly (1 # 1000) 4 (log (snd r)).
Proof.
  cbv zeta.
  assert (Hin : In (target_order "sell" (0 # 1000) 50300)
                  (log (snd (main "LONG" (Some (1 # 1000)) default_config
                               (Scenario.market "yes" []) Scenario.fresh)))).
  { vm_compute. tauto. }
  split; [reflexivity | split; [| split; [exact Hin |]]].
  - vm_compute. tauto.
  - intros Heven. apply Heven in Hin. vm_compute in Hin. discriminate.
Qed.

(** The divisor is the literal 4, not the number of targets: with two
    configured targets and a quantity of 0.004, each target order is for
    0.001. *)
Example two_targets_are_sized_in_quarters :
  let cfg := {| leverage := 10; sl_candle_multiplier := 2;
                tp_fixed_points := [300; 500]%Q;
                move_sl_to_entry_when_tp_hit := SInt 0;
                position_size_type := "FIXED";
                position_size_value := 4 # 1000 |} in
  List.filter is_order_call
    (log (snd (main "LONG" None cfg (Scenario.market "yes" []) Scenario.fresh)))
  = [ entry_order "buy" (4 # 1000);
      stop_order "sell" (4 # 1000) 49800;
      target_order "sell" (1 # 1000) 50300;
      target_order "sell" (1 # 1000) 50500 ].
Proof. vm_compute. reflexivity. Qed.

(** C2, amended. For a requested quantity above half a step, a confirmed
    entry and four configured targets (candle prices being floats and each
    reply of the gateway [None] or a JSON object), the run places the entry and
    the stop-loss for the full quantity and then one limit order per target,
    all for the same size: the quantity divided by the number of targets,
    rounded to three decimals, that is a multiple of 0.001 at most 0.0005
    from the even share. The calls that follow are those of the monitor.
    The quantity and the size of a target order are fixed by the statement
    only up to the neighbour taken at an exact half. *)
Theorem target_orders_sized_in_rounded_quarters (args_side : string)
    (args_size : option Q) (cfg : config) (a : answers) (w : world)
    (older : list candle) (prev_candle last_row : candle) (requested : Q) :
  mem args_side new_trade_sides = true ->
  api_keys a = true ->
  frame a = (older ++ [prev_candle; last_row])%list ->
  size_position (risk_manager_of args_size cfg) (fst (position_policy args_size cfg))
    (snd (position_policy args_size cfg)) (balance a) (close last_row) (leverage cfg)
  = Some requested ->
  (1 # 2000 < requested)%Q ->
  mem (confirm a) ["yes"; "y"] = true ->
  has_id (order a) = true ->
  List.length (tp_fixed_points cfg) = 4%nat ->
  let side := Py.upper args_side in
  let price := close last_row in
  let sl_price :=
    RiskManager.get_candle_based_stop_loss price side (high prev_candle)
      (low prev_candle) (sl_candle_multiplier cfg) in
  let targets :=
    RiskManager.calculate_fixed_point_targets price side (tp_fixed_points cfg) in
  let order_side := if String.eqb side "LONG" then "buy" else "sell" in
  let sl_side := if String.eqb order_side "buy" then "sell" else "buy" in
  exists qty chunk_qty ext,
    nearest_step requested qty
    /\ nearest_step (qty / inject_Z (Z.of_nat (List.length targets))) chunk_qty
    /\ Forall (fun c => is_monitor_call c = true) ext
    /\ log (snd (main args_side args_size cfg a w))
       = (log w ++ sizing_calls cfg
          ++ [ show_plan side qty price sl_price targets;
               entry_order order_side qty;
               stop_order sl_side qty sl_price ]
          ++ List.map (target_order sl_side chunk_qty) targets ++ ext)%list.
Proof.
  intros Hside Hkeys Hframe Hsized Hrequested Hyes Hentry Hfour
    side price sl_price targets order_side sl_side.
  assert (Hpos : Qle_bool (round_to_step requested) 0 = false).
  { destruct (Qle_bool (round_to_step requested) 0) eqn:Hsmall; [| reflexivity].
    apply round_to_step_nonpositive in Hsmall. lra. }
  assert (Hlen : inject_Z (Z.of_nat (List.length targets)) = 4%Q).
  { subst targets. unfold RiskManager.calculate_fixed_point_targets.
    now rewrite List.length_map, Hfour. }
  exists (round_to_step requested), (Py.fmt3 (round_to_step requested / 4)).
  rewrite Hlen, (main_opens_trade _ _ _ _ _ Hside Hkeys). fold side.
  destruct (open_trade_confirmed side args_size cfg a w older prev_candle last_row
              requested Hframe Hsized Hpos Hyes Hentry) as (sl_id & tp_ids & Hrun).
  cbv zeta in Hrun. rewrite Hrun.
  match goal with
  | |- context [monitor_trade ?t ?tk ?w0] =>
      destruct (monitor_trade_log t tk w0) as (ext & Hext & Hlog)
  end.
  exists ext.
  split; [apply round_to_step_nearest | split; [apply fmt3_nearest_step |]].
  split; [exact Hext |]. rewrite Hlog. cbn [log].
  rewrite <- !List.app_assoc. reflexivity.
Qed.

Lemma target_orders_sized_in_rounded_quarters_witness :
  exists qty chunk_qty ext,
    nearest_step (4 # 1000) qty
    /\ nearest_step (qty / 4) chunk_qty
    /\ Forall (fun c => is_monitor_call c = true) ext
    /\ log (snd (main "LONG" (Some (4 # 1000)) default_config
                   (Scenario.market "yes" []) Scenario.fresh))
       = (sizing_calls default_config
          ++ [ show_plan "LONG" qty 50000 49800 [50300; 50500; 50800; 51000]%Q;
               entry_order "buy" qty;
               stop_order "sell" qty 49800 ]
          ++ List.map (target_order "sell" chunk_qty) [50300; 50500; 50800; 51000]%Q
          ++ ext)%list.
Proof.
  exact (target_orders_sized_in_rounded_quarters "LONG" (Some (4 # 1000))
           default_config (Scenario.market "yes" []) Scenario.fresh []
           {| high := 50100; low := 50000; close := 50050 |}
           {| high := 50020; low := 49990; close := 50000 |} (4 # 1000)
           eq_refl eq_refl eq_refl eq_refl eq_refl eq_refl eq_refl eq_refl).
Defined.

(** ** Re-planning after the entry *)

(** Started with an empty log, a new trade either stops within its first
    five calls or goes through the confirmed entry. *)
Lemma open_trade_short_or_confirmed (side : string) (args_size : option Q)
    (cfg : config) (a : answers) (f : trades_file) :
  (List.length (log (snd (open_trade side args_size cfg a {| file := f; log := [] |})))
   <= 5)%nat
  \/ exists older prev_candle last_row requested,
       frame a = (older ++ [prev_candle; last_row])%list
       /\ size_position (risk_manager_of args_size cfg)
            (fst (position_policy args_size cfg)) (snd (position_policy args_size cfg))
            (balance a) (close last_row) (leverage cfg) = Some requested
       /\ Qle_bool (round_to_step requested) 0 = false
       /\ mem (confirm a) ["yes"; "y"] = true
       /\ has_id (order a) = true.
Proof.
  unfold open_trade. cbv zeta.
  destruct (List.rev (frame a)) as [| last_row [| prev_candle rest]] eqn:Hrev;
    [left; cbn; lia | left; cbn; lia |].
  destruct (size_position _ _ _ _ _ _) as [requested|] eqn:Hsized; [| left; cbn; lia].
  destruct (Qle_bool (round_to_step requested) 0) eqn:Hpos; [left; cbn; lia |].
  destruct (mem (confirm a) ["yes"; "y"]) eqn:Hyes; [| left; cbn; lia].
  destruct (has_id (order a)) eqn:Hentry; [| left; cbn; lia].
  right. exists (List.rev rest), prev_candle, last_row, requested.
  repeat split; try assumption.
  rewrite <- (List.rev_involutive (frame a)), Hrev. cbn [List.rev].
  now rewrite <- List.app_assoc.
Qed.

Lemma target_orders_determined (s s' : string) (c c' : Q) (l l' : list Q)
    (ext ext' : list call) :
  Forall (fun x => is_monitor_call x = true) ext ->
  Forall (fun x => is_monitor_call x = true) ext' ->
  (List.map (target_order s c) l ++ ext)%list
  = (List.map (target_order s' c') l' ++ ext')%list ->
  l = l'.
Proof.
  intros Hext Hext'. revert l'.
  induction l as [| t l IH]; intros [| t' l'] Heq; cbn [List.map app] in Heq.
  - reflexivity.
  - subst ext. inversion Hext as [| ? ? Hhead _]. discriminate Hhead.
  - subst ext'. inversion Hext' as [| ? ? Hhead _]. discriminate Hhead.
  - injection Heq as _ _ Ht Hrest. subst t'. f_equal. now apply IH.
Qed.

Lemma cons_eq {A : Type} (x y : A) (l l' : list A) :
  x :: l = y :: l' -> x = y /\ l = l'.
Proof. intros H. now injection H. Qed.

Lemma stop_order_price (s s' : string) (q q' p p' : Q) :
  stop_order s q p = stop_order s' q' p' -> p = p'.
Proof.
  intros H.
  apply (f_equal (fun c => match c with
                           | place_order _ _ _ _ _ params => params !! "stopPrice"
                           | _ => None
                           end)) in H.
  unfold stop_order in H. rewrite !lookup_singleton_eq in H. now injection H.
Qed.

(** C5 as stated fails: there is no run in which the protective orders are
    priced differently from the plan shown before the entry. *)
Lemma replanned_prices_never_differ_counterexample :
  ~ exists args_side args_size cfg a f, replanned_differs args_side args_size cfg a f.
Proof.
  intros (args_side & args_size & cfg & a & f & H).
  destruct H as (side & qty & price & sl_price & targets & order_side & sl_side
                 & chunk_qty & sl_price' & targets' & ext & Hlog & Hext & Hdiff).
  unfold sizing_calls in Hlog. cbn [app] in Hlog.
  unfold main in Hlog.
  destruct (mem args_side choices); cbn [negb] in Hlog; [| discriminate Hlog].
  destruct (api_keys a); cbn [negb] in Hlog; [| discriminate Hlog].
  destruct (String.eqb (Py.upper args_side) "RESUME").
  - cbn [load_trades file] in Hlog.
    destruct (last (load_trades f)) as [t|]; [| discriminate Hlog].
    destruct (monitor_trade_log t (ticks a) {| file := f; log := [] |})
      as (ext0 & Hext0 & Hlog0).
    rewrite Hlog0 in Hlog. cbn [log app] in Hlog. subst ext0.
    inversion Hext0 as [| ? ? Hhead _]. discriminate Hhead.
  - destruct (open_trade_short_or_confirmed (Py.upper args_side) args_size cfg a f)
      as [Hshort | (older & prev_candle & last_row & requested
                    & Hframe & Hsized & Hpos & Hyes & Hentry)].
    + rewrite Hlog in Hshort. cbn [List.length] in Hshort. lia.
    + destruct (open_trade_confirmed (Py.upper args_side) args_size cfg a
                  {| file := f; log := [] |} older prev_candle last_row requested
                  Hframe Hsized Hpos Hyes Hentry) as (sl_id & tp_ids & Hrun).
      cbv zeta in Hrun. rewrite Hrun in Hlog.
      match type of Hlog with
      | context [monitor_trade ?t ?tk ?w0] =>
          destruct (monitor_trade_log t tk w0) as (ext0 & Hext0 & Hlog0)
      end.
      rewrite Hlog0 in Hlog. unfold sizing_calls in Hlog. cbn [log app] in Hlog.
      rewrite <- ?List.app_assoc in Hlog. cbn [app] in Hlog.
      do 3 (apply cons_eq in Hlog as [_ Hlog]).
      apply cons_eq in Hlog as [Hplan Hlog].
      apply cons_eq in Hlog as [_ Hlog].
      apply cons_eq in Hlog as [Hstop Hlog].
      injection Hplan as _ _ _ Hsl Htg.
      apply stop_order_price in Hstop.
      apply (target_orders_determined _ _ _ _ _ _ _ _ Hext0 Hext) in Hlog.
      destruct Hdiff as [Hd | Hd]; apply Hd; congruence.
Qed.

(** C5, amended. After a confirmed entry the stop-loss price and the
    targets are computed again from the price stored as the trade's
    [entry_price]; that price is the last close read before sizing, the
    same price the plan was made from (no fill price is read from the
    gateway's reply), so the protective orders carry exactly the prices of
    the plan shown to the operator. *)
Theorem protective_prices_from_recorded_entry_price (args_side : string)
    (args_size : option Q) (cfg : config) (a : answers) (w : world)
    (older : list candle) (prev_candle last_row : candle) (requested : Q) :
  mem args_side new_trade_sides = true ->
  api_keys a = true ->
  frame a = (older ++ [prev_candle; last_row])%list ->
  size_position (risk_manager_of args_size cfg) (fst (position_policy args_size cfg))
    (snd (position_policy args_size cfg)) (balance a) (close last_row) (leverage cfg)
  = Some requested ->
  Qle_bool (round_to_step requested) 0 = false ->
  mem (confirm a) ["yes"; "y"] = true ->
  has_id (order a) = true ->
  let side := Py.upper args_side in
  let qty := round_to_step requested in
  let recorded := entry_price_executed (close last_row) (order a) in
  let sl_price :=
    RiskManager.get_candle_based_stop_loss recorded side (high prev_candle)
      (low prev_candle) (sl_candle_multiplier cfg) in
  let targets :=
    RiskManager.calculate_fixed_point_targets recorded side (tp_fixed_points cfg) in
  let order_side := if String.eqb side "LONG" then "buy" else "sell" in
  let sl_side := if String.eqb order_side "buy" then "sell" else "buy" in
  recorded = close last_row
  /\ exists (sl_order_id : scalar) (tp_ids : list scalar),
       let record :=
         trade_record (now a) "B-BTC_USDT" side qty recorded (VScalar sl_order_id)
           tp_ids targets (move_sl_to_entry_when_tp_hit cfg) in
       record !! "entry_price" = Some (VScalar (SFloat recorded))
       /\ main args_side args_size cfg a w
          = monitor_trade record (ticks a)
              {| file := add_trade record (file w);
                 log := (log w ++ sizing_calls cfg
                         ++ [ show_plan side qty (close last_row) sl_price targets;
                              entry_order order_side qty;
                              stop_order sl_side qty sl_price ]
                         ++ List.map (target_order sl_side (Py.fmt3 (qty / 4)))
                              targets)%list |}.
Proof.
  intros Hside Hkeys Hframe Hsized Hpos Hyes Hentry
    side qty recorded sl_price targets order_side sl_side.
  split; [reflexivity |].
  destruct (open_trade_confirmed side args_size cfg a w older prev_candle last_row
              requested Hframe Hsized Hpos Hyes Hentry) as (sl_id & tp_ids & Hrun).
  exists sl_id, tp_ids. cbv zeta. split.
  - unfold trade_record.
    now rewrite !lookup_insert_ne, lookup_insert_eq by discriminate.
  - rewrite (main_opens_trade _ _ _ _ _ Hside Hkeys). exact Hrun.
Qed.

Lemma protective_prices_from_recorded_entry_price_witness :
  exists (sl_order_id : scalar) (tp_ids : list scalar),
    let record :=
      trade_record 1700000000 "B-BTC_USDT" "LONG" (4 # 1000) 50000
        (VScalar sl_order_id) tp_ids [50300; 50500; 50800; 51000]%Q (SInt 0) in
    record !! "entry_price" = Some (VScalar (SFloat 50000))
    /\ main "LONG" (Some (4 # 1000)) default_config (Scenario.market "yes" [])
         Scenario.fresh
       = monitor_trade record []
           {| file := add_trade record Absent;
              log := (sizing_calls default_config
                      ++ [ show_plan "LONG" (4 # 1000) 50000 49800
                             [50300; 50500; 50800; 51000]%Q;
                           entry_order "buy" (4 # 1000);
                           stop_order "sell" (4 # 1000) 49800 ]
                      ++ List.map (target_order "sell" (1 # 1000))
                           [50300; 50500; 50800; 51000]%Q)%list |}.
Proof.
  exact (proj2 (protective_prices_from_recorded_entry_price "LONG" (Some (4 # 1000))
                  default_config (Scenario.market "yes" []) Scenario.fresh []
                  {| high := 50100; low := 50000; close := 50050 |}
                  {| high := 50020; low := 49990; close := 50000 |} (4 # 1000)
                  eq_refl eq_refl eq_refl eq_refl eq_refl eq_refl eq_refl)).
Defined.

(** * Further properties of the code *)

(** ** Trade store: update, delete and their composition with add *)

Lemma update_first_skip trade_id key val before rest :
  id_absent trade_id before ->
  update_first trade_id key val (before ++ rest)%list
  = match update_first trade_id key val rest with
    | Some rest' => Some (before ++ rest')%list
    | None => None
    end.
Proof.
  induction 1 as [| t before Ht _ IH]; cbn [app update_first].
  - now destruct (update_first trade_id key val rest).
  - rewrite Ht, IH. now destruct (update_first trade_id key val rest).
Qed.

Lemma update_trade_first_match_aux (trade_id : value) (key : string) (val : value)
    (f : trades_file) (before after : list (gmap string value))
    (t : gmap string value) :
  load_trades f = (before ++ t :: after)%list ->
  id_absent trade_id before ->
  value_eqb (dict_get t "id" VNone) trade_id = true ->
  update_trade trade_id key val f = Holds (before ++ <[key := val]> t :: after).
Proof.
  intros Hload Habs Hid. unfold update_trade, save_trades.
  rewrite Hload, (update_first_skip _ _ _ _ _ Habs). cbn [update_first].
  now rewrite Hid.
Qed.

(** X1. [update_trade] rewrites the first record whose id matches, and
    only that one: the records before it and all records after it (also
    later ones with the same id) are written back as they were. *)
Theorem update_trade_first_match (trade_id : value) (key : string) (val : value)
    (f : trades_file) (before after : list (gmap string value))
    (t : gmap string value) :
  load_trades f = (before ++ t :: after)%list ->
  id_absent trade_id before ->
  value_eqb (dict_get t "id" VNone) trade_id = true ->
  update_trade trade_id key val f = Holds (before ++ <[key := val]> t :: after).
Proof.
  apply update_trade_first_match_aux.
Qed.

Lemma update_trade_first_match_witness :
  let older : gmap string value := {[ "id" := VScalar (SStr "1699999999") ]} in
  update_trade Scenario.trade_id "sl_moved" VTrue
    (Holds [older; Scenario.trade; Scenario.trade])
  = Holds [older; <["sl_moved" := VTrue]> Scenario.trade; Scenario.trade].
Proof.
  intros older.
  apply (update_trade_first_match Scenario.trade_id "sl_moved" VTrue
           (Holds [older; Scenario.trade; Scenario.trade]) [older] [Scenario.trade]
           Scenario.trade eq_refl).
  - repeat constructor.
  - reflexivity.
Defined.

Lemma update_first_pointwise trade_id key val trades trades' :
  update_first trade_id key val trades = Some trades' ->
  Forall2 (fun t t' => t' = t \/ t' = <[key := val]> t) trades trades'.
Proof.
  revert trades'. induction trades as [| t rest IH]; intros trades' H;
    cbn [update_first] in H; [discriminate |].
  destruct (value_eqb (dict_get t "id" VNone) trade_id).
  - injection H as <-. constructor; [now right |].
    clear. induction rest; constructor; auto.
  - destruct (update_first trade_id key val rest) as [rest'|]; [| discriminate].
    injection H as <-. constructor; [now left | now apply IH].
Qed.

(** X2. Whatever the id, [update_trade] keeps the number of records, and
    in every record every field other than [key] keeps its value: a record
    is written back either unchanged or with [key] set to [value]. *)
Theorem update_trade_keeps_other_fields (trade_id : value) (key : string) (val : value)
    (f : trades_file) :
  List.length (load_trades (update_trade trade_id key val f))
  = List.length (load_trades f)
  /\ forall (i : nat) (t : gmap string value),
       load_trades f !! i = Some t ->
       exists t',
         load_trades (update_trade trade_id key val f) !! i = Some t'
         /\ (t' = t \/ t' = <[key := val]> t)
         /\ forall k, k <> key -> t' !! k = t !! k.
Proof.
  unfold update_trade.
  destruct (update_first trade_id key val (load_trades f)) as [trades'|] eqn:Hupd.
  - apply update_first_pointwise in Hupd. cbn [save_trades load_trades]. split.
    + symmetry. eapply Forall2_length, Hupd.
    + intros i t Hi.
      destruct (Forall2_lookup_l _ _ _ _ _ Hupd Hi) as (t' & Hi' & Hrel).
      exists t'. repeat split; try assumption.
      intros k Hk. destruct Hrel as [-> | ->]; [reflexivity |].
      now rewrite lookup_insert_ne.
  - split; [reflexivity |]. intros i t Hi. exists t. auto.
Qed.

Lemma filter_id_in trade_id (trades : list (gmap string value)) t :
  In t (List.filter (fun t => negb (value_eqb (dict_get t "id" VNone) trade_id)) trades)
  <-> In t trades /\ value_eqb (dict_get t "id" VNone) trade_id = false.
Proof. rewrite List.filter_In, Bool.negb_true_iff. reflexivity. Qed.

Lemma filter_sublist {A : Type} (p : A -> bool) (l : list A) :
  sublist (List.filter p l) l.
Proof.
  induction l as [| x l IH]; cbn [List.filter]; [constructor |].
  destruct (p x); now constructor.
Qed.

(** X3. [delete_trade] removes every record whose id matches, not only the
    first: afterwards the id is absent, the records with another id are
    all still there in their order, and deleting again changes nothing. *)
Theorem delete_trade_removes_every_match (trade_id : value) (f : trades_file) :
  id_absent trade_id (load_trades (delete_trade trade_id f))
  /\ sublist (load_trades (delete_trade trade_id f)) (load_trades f)
  /\ (forall t,
        In t (load_trades (delete_trade trade_id f))
        <-> In t (load_trades f) /\ value_eqb (dict_get t "id" VNone) trade_id = false)
  /\ delete_trade trade_id (delete_trade trade_id f) = delete_trade trade_id f.
Proof.
  unfold delete_trade, save_trades. cbn [load_trades].
  assert (Habs : id_absent trade_id
                   (List.filter
                      (fun t => negb (value_eqb (dict_get t "id" VNone) trade_id))
                      (load_trades f))).
  { apply List.Forall_forall. intros t Ht. now apply filter_id_in in Ht. }
  split; [exact Habs | split; [apply filter_sublist | split]].
  - intros t. apply filter_id_in.
  - now rewrite (filter_absent _ _ Habs).
Qed.

(** X4. Adding a record and then deleting its id gives back the collection
    that was there before, provided no earlier record carried that id. *)
Theorem add_then_delete_restores (trade_data : gmap string value) (trade_id : value)
    (f : trades_file) :
  value_eqb (dict_get trade_data "id" VNone) trade_id = true ->
  id_absent trade_id (load_trades f) ->
  load_trades (delete_trade trade_id (add_trade trade_data f)) = load_trades f.
Proof.
  intros Hid Habs. unfold delete_trade, add_trade, save_trades. cbn [load_trades].
  rewrite List.filter_app, (filter_absent _ _ Habs). cbn [List.filter].
  rewrite Hid. cbn [negb]. apply List.app_nil_r.
Qed.

Lemma add_then_delete_restores_witness :
  let older : gmap string value := {[ "id" := VScalar (SStr "1699999999") ]} in
  load_trades (delete_trade Scenario.trade_id (add_trade Scenario.trade (Holds [older])))
  = [older].
Proof.
  intros older.
  apply (add_then_delete_restores Scenario.trade Scenario.trade_id (Holds [older])).
  - reflexivity.
  - repeat constructor.
Defined.

(** X5. A field update addressed to the id of the record just added lands
    in that record when no earlier record carries the id; when an earlier
    record does, the update goes to the earliest such record and the new
    record is written back untouched. *)
Theorem update_after_add (trade_data : gmap string value) (trade_id : value)
    (key : string) (val : value) (f : trades_file) :
  value_eqb (dict_get trade_data "id" VNone) trade_id = true ->
  (id_absent trade_id (load_trades f) ->
     update_trade trade_id key val (add_trade trade_data f)
     = Holds (load_trades f ++ [<[key := val]> trade_data]))
  /\ (forall before t after,
        load_trades f = (before ++ t :: after)%list ->
        id_absent trade_id before ->
        value_eqb (dict_get t "id" VNone) trade_id = true ->
        update_trade trade_id key val (add_trade trade_data f)
        = Holds (before ++ <[key := val]> t :: after ++ [trade_data])).
Proof.
  intros Hid. split.
  - intros Habs.
    apply (update_trade_first_match_aux trade_id key val (add_trade trade_data f)
             (load_trades f) [] trade_data); auto.
  - intros before t after Hload Habs Ht.
    apply (update_trade_first_match_aux trade_id key val (add_trade trade_data f)
             before (after ++ [trade_data]) t); auto.
    unfold add_trade, save_trades. cbn [load_trades]. rewrite Hload.
    now rewrite <- List.app_assoc.
Qed.

Lemma update_after_add_witness :
  update_trade Scenario.trade_id "sl_moved" VTrue (add_trade Scenario.trade Absent)
  = Holds [<["sl_moved" := VTrue]> Scenario.trade].
Proof.
  exact (proj1 (update_after_add Scenario.trade Scenario.trade_id "sl_moved" VTrue
                  Absent eq_refl) (List.Forall_nil _)).
Defined.

Lemma update_first_again trade_id key val trades trades' :
  key <> "id" ->
  update_first trade_id key val trades = Some trades' ->
  update_first trade_id key val trades' = Some trades'.
Proof.
  intros Hkey. revert trades'.
  induction trades as [| t rest IH]; intros trades' H; cbn [update_first] in H;
    [discriminate |].
  destruct (value_eqb (dict_get t "id" VNone) trade_id) eqn:Hid.
  - injection H as <-. cbn [update_first].
    assert (Hsame : dict_get (<[key := val]> t) "id" VNone = dict_get t "id" VNone).
    { unfold dict_get. now rewrite lookup_insert_ne. }
    now rewrite Hsame, Hid, insert_insert_eq.
  - destruct (update_first trade_id key val rest) as [rest'|]; [| discriminate].
    injection H as <-. cbn [update_first]. now rewrite Hid, (IH rest' eq_refl).
Qed.

(** X6. Writing the same value to the same field twice is the same as
    writing it once, for every field other than ["id"] itself. *)
Theorem update_trade_idempotent (trade_id : value) (key : string) (val : value)
    (f : trades_file) :
  key <> "id" ->
  update_trade trade_id key val (update_trade trade_id key val f)
  = update_trade trade_id key val f.
Proof.
  intros Hkey. unfold update_trade at 2 3.
  destruct (update_first trade_id key val (load_trades f)) as [trades'|] eqn:Hupd.
  - unfold update_trade, save_trades. cbn [load_trades].
    now rewrite (update_first_again _ _ _ _ _ Hkey Hupd).
  - unfold update_trade. now rewrite Hupd.
Qed.

Lemma update_trade_idempotent_witness :
  let f := Holds [Scenario.trade] in
  update_trade Scenario.trade_id "sl_moved" VTrue
    (update_trade Scenario.trade_id "sl_moved" VTrue f)
  = update_trade Scenario.trade_id "sl_moved" VTrue f.
Proof.
  intros f. apply update_trade_idempotent. discriminate.
Defined.

(** ** Risk planner: stops, targets and sizes *)

Lemma ascii_upper_idempotent (c : ascii) :
  Py.ascii_upper (Py.ascii_upper c) = Py.ascii_upper c.
Proof. destruct c as [[] [] [] [] [] [] [] []]; reflexivity. Qed.

Lemma upper_idempotent (s : string) : Py.upper (Py.upper s) = Py.upper s.
Proof.
  induction s as [| c s IH]; cbn [Py.upper]; [reflexivity |].
  now rewrite ascii_upper_idempotent, IH.
Qed.

(** X7. The direction is read without regard to letter case: each of the
    four planner functions gives the same result for a direction and for
    its upper-case form (so ["long"] plans like ["LONG"]). *)
Theorem planner_direction_case_insensitive (self : RiskManager.t) (d : string)
    (entry x y m : Q) (points : list Q) :
  RiskManager.get_stop_loss_price self entry (Py.upper d) x
  = RiskManager.get_stop_loss_price self entry d x
  /\ RiskManager.get_candle_based_stop_loss entry (Py.upper d) x y m
     = RiskManager.get_candle_based_stop_loss entry d x y m
  /\ RiskManager.calculate_targets entry (Py.upper d) x
     = RiskManager.calculate_targets entry d x
  /\ RiskManager.calculate_fixed_point_targets entry (Py.upper d) points
     = RiskManager.calculate_fixed_point_targets entry d points.
Proof.
  unfold RiskManager.get_stop_loss_price, RiskManager.get_candle_based_stop_loss,
    RiskManager.calculate_targets, RiskManager.calculate_fixed_point_targets.
  now rewrite upper_idempotent.
Qed.

(** X8. With a non-negative multiplier the candle-based stop is never
    above the entry for LONG and never below it for SHORT, the two stops
    are mirror images about the entry, exchanging the candle's high and low
    changes nothing, and a direction that is neither LONG nor SHORT gets
    the entry price itself as its stop. *)
Theorem candle_stop_sides (entry candle_high candle_low multiplier : Q) :
  (0 <= multiplier)%Q ->
  let stop d :=
    RiskManager.get_candle_based_stop_loss entry d candle_high candle_low multiplier in
  (stop "LONG" <= entry)%Q
  /\ (entry <= stop "SHORT")%Q
  /\ (stop "LONG" + stop "SHORT" == 2 * entry)%Q
  /\ (forall d,
        (RiskManager.get_candle_based_stop_loss entry d candle_low candle_high multiplier
         == stop d)%Q)
  /\ (forall d, Py.upper d <> "LONG" -> Py.upper d <> "SHORT" -> stop d = entry).
Proof.
  intros Hm stop. subst stop. cbv beta.
  unfold RiskManager.get_candle_based_stop_loss.
  change (String.eqb (Py.upper "LONG") "LONG") with true.
  change (String.eqb (Py.upper "SHORT") "LONG") with false.
  change (String.eqb (Py.upper "SHORT") "SHORT") with true. cbv iota.
  pose proof (Qabs_nonneg (candle_high - candle_low)) as Hsize.
  assert (Hdist : (0 <= Qabs (candle_high - candle_low) * multiplier)%Q)
    by now apply Qmult_le_0_compat.
  set (dist := (Qabs (candle_high - candle_low) * multiplier)%Q) in *.
  repeat split; try lra.
  - intros d.
    assert (Hswap : (Qabs (candle_low - candle_high) * multiplier == dist)%Q).
    { subst dist. now rewrite (Qabs_Qminus candle_low candle_high). }
    destruct (String.eqb (Py.upper d) "LONG"); [lra |].
    destruct (String.eqb (Py.upper d) "SHORT"); [lra | reflexivity].
  - intros d Hlong Hshort.
    apply String.eqb_neq in Hlong, Hshort. now rewrite Hlong, Hshort.
Qed.

Lemma candle_stop_sides_witness :
  (RiskManager.get_candle_based_stop_loss 50000 "LONG" 50100 50000 2 <= 50000)%Q
  /\ (50000 <= RiskManager.get_candle_based_stop_loss 50000 "SHORT" 50100 50000 2)%Q.
Proof.
  destruct (candle_stop_sides 50000 50100 50000 2 ltac:(discriminate))
    as (Hlong & Hshort & _).
  split; [exact Hlong | exact Hshort].
Defined.

Lemma Qeq_bool_false (x : Q) : ~ (x == 0)%Q -> Qeq_bool x 0 = false.
Proof.
  intros H. destruct (Qeq_bool x 0) eqn:E; [| reflexivity].
  now apply Qeq_bool_iff in E.
Qed.

(** X9. Targets computed from the volatility stop of the same direction:
    with a positive stop distance [atr * multiplier], the stop lies on the
    loss side of the entry and the r-th target lies r stop distances on the
    profit side, so the first target is as far from the entry as the stop
    is. For a direction that is neither LONG nor SHORT the stop is the
    entry and all four targets equal the entry. *)
Theorem targets_from_volatility_stop (self : RiskManager.t) (entry atr : Q) :
  (0 < atr * RiskManager.sl_multiplier self)%Q ->
  let dist := (atr * RiskManager.sl_multiplier self)%Q in
  let stop d := RiskManager.get_stop_loss_price self entry d atr in
  ((stop "LONG" == entry - dist)%Q
   /\ exists t1 t2 t3 t4,
        RiskManager.calculate_targets entry "LONG" (stop "LONG") = [t1; t2; t3; t4]
        /\ (t1 - entry == entry - stop "LONG")%Q
        /\ (t2 == entry + 2 * dist)%Q /\ (t3 == entry + 3 * dist)%Q
        /\ (t4 == entry + 4 * dist)%Q)
  /\ ((stop "SHORT" == entry + dist)%Q
      /\ exists t1 t2 t3 t4,
           RiskManager.calculate_targets entry "SHORT" (stop "SHORT") = [t1; t2; t3; t4]
           /\ (entry - t1 == stop "SHORT" - entry)%Q
           /\ (t2 == entry - 2 * dist)%Q /\ (t3 == entry - 3 * dist)%Q
           /\ (t4 == entry - 4 * dist)%Q)
  /\ (forall d,
        Py.upper d <> "LONG" -> Py.upper d <> "SHORT" ->
        stop d = entry
        /\ RiskManager.calculate_targets entry d (stop d) = [entry; entry; entry; entry]).
Proof.
  intros Hpos dist stop. subst stop. cbv beta.
  unfold RiskManager.get_stop_loss_price. fold dist. fold dist in Hpos.
  clearbody dist.
  change (String.eqb (Py.upper "LONG") "LONG") with true.
  change (String.eqb (Py.upper "SHORT") "LONG") with false.
  change (String.eqb (Py.upper "SHORT") "SHORT") with true. cbv iota.
  assert (Hlong : (Qabs (entry - (entry - dist)) == dist)%Q).
  { rewrite Qabs_pos; lra. }
  assert (Hshort : (Qabs (entry - (entry + dist)) == dist)%Q).
  { rewrite Qabs_neg; lra. }
  split; [| split].
  - split; [reflexivity |].
    unfold RiskManager.calculate_targets.
    rewrite (Qeq_bool_false (Qabs (entry - (entry - dist)))) by lra.
    change (Py.range 1 5) with [1; 2; 3; 4]%Z. cbn [List.map].
    change (String.eqb (Py.upper "LONG") "LONG") with true. cbv iota.
    change (inject_Z 1) with 1%Q. change (inject_Z 2) with 2%Q.
    change (inject_Z 3) with 3%Q. change (inject_Z 4) with 4%Q.
    do 4 eexists. split; [reflexivity |]. repeat split; lra.
  - split; [reflexivity |].
    unfold RiskManager.calculate_targets.
    rewrite (Qeq_bool_false (Qabs (entry - (entry + dist)))) by lra.
    change (Py.range 1 5) with [1; 2; 3; 4]%Z. cbn [List.map].
    change (String.eqb (Py.upper "SHORT") "LONG") with false. cbv iota.
    change (inject_Z 1) with 1%Q. change (inject_Z 2) with 2%Q.
    change (inject_Z 3) with 3%Q. change (inject_Z 4) with 4%Q.
    do 4 eexists. split; [reflexivity |]. repeat split; lra.
  - intros d Hl Hs. apply String.eqb_neq in Hl, Hs. rewrite Hl, Hs.
    split; [reflexivity |]. unfold RiskManager.calculate_targets.
    assert (Hzero : Qeq_bool (Qabs (entry - entry)) 0 = true).
    { apply Qeq_bool_iff. rewrite Qabs_pos; lra. }
    now rewrite Hzero.
Qed.

Lemma targets_from_volatility_stop_witness :
  let self := {| RiskManager.risk_type := "FIXED_SIZE"; RiskManager.risk_value := 1 # 2;
                 RiskManager.sl_multiplier := 2 |} in
  (RiskManager.get_stop_loss_price self 50000 "LONG" 100 == 50000 - 100 * 2)%Q
  /\ exists t1 t2 t3 t4,
       RiskManager.calculate_targets 50000 "LONG"
         (RiskManager.get_stop_loss_price self 50000 "LONG" 100) = [t1; t2; t3; t4]
       /\ (t1 - 50000 == 50000 - RiskManager.get_stop_loss_price self 50000 "LONG" 100)%Q
       /\ (t2 == 50000 + 2 * (100 * 2))%Q /\ (t3 == 50000 + 3 * (100 * 2))%Q
       /\ (t4 == 50000 + 4 * (100 * 2))%Q.
Proof.
  intros self.
  exact (proj1 (targets_from_volatility_stop self 50000 100 ltac:(reflexivity))).
Defined.

(** X10. The risk-multiple targets depend on the stop only through its
    distance from the entry: two stops equally far from the entry, on
    either side, give equal targets; and every direction other than LONG
    is planned as SHORT. *)
Theorem targets_depend_on_distance_only (entry sl sl' : Q) (d : string) :
  (Qabs (entry - sl) == Qabs (entry - sl'))%Q ->
  Forall2 Qeq (RiskManager.calculate_targets entry d sl)
    (RiskManager.calculate_targets entry d sl')
  /\ (Py.upper d <> "LONG" ->
      RiskManager.calculate_targets entry d sl
      = RiskManager.calculate_targets entry "SHORT" sl).
Proof.
  intros Hdist. split.
  - unfold RiskManager.calculate_targets.
    assert (Hz : Qeq_bool (Qabs (entry - sl)) 0 = Qeq_bool (Qabs (entry - sl')) 0).
    { destruct (Qeq_bool (Qabs (entry - sl')) 0) eqn:E.
      - apply Qeq_bool_iff. apply Qeq_bool_iff in E. lra.
      - apply Qeq_bool_false. apply Qeq_bool_neq in E. lra. }
    rewrite Hz. destruct (Qeq_bool (Qabs (entry - sl')) 0).
    + repeat constructor.
    + change (Py.range 1 5) with [1; 2; 3; 4]%Z. cbn [List.map].
      destruct (String.eqb (Py.upper d) "LONG");
        repeat constructor; rewrite Hdist; reflexivity.
  - intros Hl. apply String.eqb_neq in Hl.
    unfold RiskManager.calculate_targets. rewrite Hl.
    change (String.eqb (Py.upper "SHORT") "LONG") with false. reflexivity.
Qed.

Lemma targets_depend_on_distance_only_witness :
  Forall2 Qeq (RiskManager.calculate_targets 50000 "LONG" 49800)
    (RiskManager.calculate_targets 50000 "LONG" 50200).
Proof.
  exact (proj1 (targets_depend_on_distance_only 50000 49800 50200 "LONG"
                  ltac:(reflexivity))).
Defined.

(** X11. Fixed-point targets keep the number and the order of the
    offsets: LONG and SHORT targets are mirror images about the entry,
    strictly increasing offsets give strictly increasing LONG targets and
    strictly decreasing SHORT targets, and positive offsets put every LONG
    target above and every SHORT target below the entry. *)
Theorem fixed_point_targets_follow_offsets (entry : Q) (points : list Q) :
  let long := RiskManager.calculate_fixed_point_targets entry "LONG" points in
  let short := RiskManager.calculate_fixed_point_targets entry "SHORT" points in
  List.length long = List.length points
  /\ List.length short = List.length points
  /\ Forall2 (fun tl ts => (tl + ts == 2 * entry)%Q) long short
  /\ (StronglySorted Qlt points ->
      StronglySorted Qlt long
      /\ StronglySorted (fun a b => (b < a)%Q) short)
  /\ (Forall (fun p => (0 < p)%Q) points ->
      Forall (fun t => (entry < t)%Q) long /\ Forall (fun t => (t < entry)%Q) short).
Proof.
  cbv zeta. unfold RiskManager.calculate_fixed_point_targets.
  change (String.eqb (Py.upper "LONG") "LONG") with true.
  change (String.eqb (Py.upper "SHORT") "LONG") with false. cbv iota.
  split; [apply List.length_map | split; [apply List.length_map | split; [| split]]].
  - induction points as [| p ps IH]; cbn [List.map]; constructor; [lra | exact IH].
  - intros Hsorted.
    induction Hsorted as [| p ps Hs [IHl IHs] Hall]; cbn [List.map];
      split; constructor; try assumption;
      apply List.Forall_map; eapply List.Forall_impl; [| exact Hall | | exact Hall];
      cbv beta; intros; lra.
  - intros Hpos. split; apply List.Forall_map;
      (eapply List.Forall_impl; [| exact Hpos]); cbv beta; intros; lra.
Qed.

Lemma fixed_point_targets_follow_offsets_witness :
  StronglySorted Qlt
    (RiskManager.calculate_fixed_point_targets 50000 "LONG" [300; 500; 800; 1000]%Q)
  /\ Forall (fun t => (t < 50000)%Q)
       (RiskManager.calculate_fixed_point_targets 50000 "SHORT" [300; 500; 800; 1000]%Q).
Proof.
  destruct (fixed_point_targets_follow_offsets 50000 [300; 500; 800; 1000]%Q)
    as (_ & _ & _ & Hsorted & Hpos).
  split.
  - apply Hsorted. repeat constructor.
  - apply Hpos. repeat constructor.
Defined.

(** X12. Sizing: a zero price makes the three computed policies fail
    (division by zero); otherwise the quantity times the price gives back
    the amount committed: the share of the balance for PERCENTAGE, margin
    times leverage for MARGIN, and the share of the balance times leverage
    for MARGIN_PERCENTAGE. FIXED_SIZE returns its value and an unknown
    policy returns 0, whatever the balance, price and leverage. *)
Theorem calculate_qty_policies (risk_value sl_multiplier balance entry_price leverage : Q) :
  let sized ty :=
    RiskManager.calculate_qty
      {| RiskManager.risk_type := ty; RiskManager.risk_value := risk_value;
         RiskManager.sl_multiplier := sl_multiplier |} balance entry_price leverage in
  sized "FIXED_SIZE" = Some risk_value
  /\ (forall ty,
        ty <> "FIXED_SIZE" -> ty <> "PERCENTAGE" -> ty <> "MARGIN" ->
        ty <> "MARGIN_PERCENTAGE" -> sized ty = Some 0%Q)
  /\ ((entry_price == 0)%Q ->
      sized "PERCENTAGE" = None /\ sized "MARGIN" = None
      /\ sized "MARGIN_PERCENTAGE" = None)
  /\ (~ (entry_price == 0)%Q ->
      exists qp qm qmp,
        sized "PERCENTAGE" = Some qp /\ sized "MARGIN" = Some qm
        /\ sized "MARGIN_PERCENTAGE" = Some qmp
        /\ (qp * entry_price == balance * risk_value * (1 # 100))%Q
        /\ (qm * entry_price == risk_value * leverage)%Q
        /\ (qmp * entry_price == balance * risk_value * (1 # 100) * leverage)%Q
        /\ (qmp == qp * leverage)%Q).
Proof.
  cbv zeta. unfold RiskManager.calculate_qty. cbn [RiskManager.risk_type
    RiskManager.risk_value]. cbn [String.eqb Ascii.eqb Bool.eqb].
  split; [reflexivity | split; [| split]].
  - intros ty H1 H2 H3 H4. apply String.eqb_neq in H1, H2, H3, H4.
    now rewrite H1, H2, H3, H4.
  - intros Hz. apply Qeq_bool_iff in Hz. unfold Py.div. now rewrite Hz.
  - intros Hnz. unfold Py.div. rewrite (Qeq_bool_false _ Hnz).
    do 3 eexists. repeat split; field; exact Hnz.
Qed.

Lemma calculate_qty_policies_witness :
  exists qp qm qmp,
    RiskManager.calculate_qty
      {| RiskManager.risk_type := "PERCENTAGE"; RiskManager.risk_value := 10;
         RiskManager.sl_multiplier := 2 |} 10000 50000 5 = Some qp
    /\ RiskManager.calculate_qty
         {| RiskManager.risk_type := "MARGIN"; RiskManager.risk_value := 10;
            RiskManager.sl_multiplier := 2 |} 10000 50000 5 = Some qm
    /\ RiskManager.calculate_qty
         {| RiskManager.risk_type := "MARGIN_PERCENTAGE"; RiskManager.risk_value := 10;
            RiskManager.sl_multiplier := 2 |} 10000 50000 5 = Some qmp
    /\ (qp * 50000 == 10000 * 10 * (1 # 100))%Q
    /\ (qm * 50000 == 10 * 5)%Q
    /\ (qmp * 50000 == 10000 * 10 * (1 # 100) * 5)%Q
    /\ (qmp == qp * 5)%Q.
Proof.
  destruct (calculate_qty_policies 10 2 10000 50000 5) as (_ & _ & _ & Hnz).
  apply Hnz. discriminate.
Defined.

(** ** Sizing in [main] *)

Lemma monitor_trade_exit (trade : gmap string value) (ticks : list tick) (w : world) :
  fst (monitor_trade trade ticks w) = Crashed
  \/ fst (monitor_trade trade ticks w) = NoStopLossId
  \/ fst (monitor_trade trade ticks w) = Stopped.
Proof.
  unfold monitor_trade.
  destruct (trade !! "symbol") as [symbol|]; [| now left].
  destruct (negb (truthy (dict_get trade "sl_order_id" VNone))); [now right; left |].
  match goal with
  | |- context [loop ?s ?m ?tg ?e ?sd ?q ?i ticks ?l w] =>
      pose proof (loop_exit s m tg e sd q i ticks l w) as Hexit;
      destruct (loop s m tg e sd q i ticks l w) as [e' [l' w']]
  end.
  cbn [fst] in *. destruct Hexit as [-> | ->]; auto.
Qed.

(** X13. The smallest quantity that can be traded: a requested quantity
    is refused as too small exactly when it is at most 0.0005 (half a
    step, which rounds to zero); rounding an already rounded quantity
    changes nothing. With [--size s] the requested quantity is [s]
    whatever the configured policy, balance and price, so such a run ends
    with "Quantity too small" if and only if [s <= 0.0005]. *)
Theorem too_small_threshold (args_side : string) (s : Q) (cfg : config)
    (a : answers) (w : world) (older : list candle) (prev_candle last_row : candle) :
  mem args_side new_trade_sides = true ->
  api_keys a = true ->
  frame a = (older ++ [prev_candle; last_row])%list ->
  (forall q, Qle_bool (round_to_step q) 0 = true <-> (q <= 1 # 2000)%Q)
  /\ (forall q, (round_to_step (round_to_step q) == round_to_step q)%Q)
  /\ size_position (risk_manager_of (Some s) cfg) (fst (position_policy (Some s) cfg))
       (snd (position_policy (Some s) cfg)) (balance a) (close last_row) (leverage cfg)
     = Some s
  /\ (fst (main args_side (Some s) cfg a w) = QuantityTooSmall <-> (s <= 1 # 2000)%Q).
Proof.
  intros Hside Hkeys Hframe.
  assert (Hsized : size_position (risk_manager_of (Some s) cfg)
                     (fst (position_policy (Some s) cfg))
                     (snd (position_policy (Some s) cfg)) (balance a) (close last_row)
                     (leverage cfg) = Some s) by reflexivity.
  split; [apply round_to_step_nonpositive | split; [| split; [exact Hsized |]]].
  - intros q. rewrite (round_to_step_steps (round_to_step q)).
    rewrite (round_of_integer (round_to_step q / step_size)
               (Py.round (q / step_size))).
    + symmetry. apply round_to_step_steps.
    + rewrite round_to_step_steps. unfold step_size. field.
  - rewrite (main_opens_trade _ _ _ _ _ Hside Hkeys).
    rewrite <- round_to_step_nonpositive.
    destruct (Qle_bool (round_to_step s) 0) eqn:Hsmall.
    + rewrite (open_trade_too_small _ _ _ _ _ _ _ _ _ Hframe Hsized Hsmall).
      split; reflexivity.
    + split; [| discriminate]. intros Hexit. exfalso.
      unfold open_trade in Hexit. cbv zeta in Hexit.
      rewrite (rev_frame _ _ _ _ Hframe), Hsized, Hsmall in Hexit.
      destruct (negb (mem (confirm a) ["yes"; "y"])); [discriminate Hexit |].
      destruct (negb (has_id (order a))); [discriminate Hexit |].
      destruct (place_targets _ _ _ _ _ _ _ _) as [tp_ids w1].
      match type of Hexit with
      | context [monitor_trade ?t ?tk ?w0] =>
          destruct (monitor_trade_exit t tk w0) as [H | [H | H]];
          rewrite H in Hexit; discriminate Hexit
      end.
Qed.

Lemma too_small_threshold_witness :
  fst (main "short" (Some (5 # 10000)) default_config (Scenario.market "yes" [])
         Scenario.fresh) = QuantityTooSmall
  <-> (5 # 10000 <= 1 # 2000)%Q.
Proof.
  exact (proj2 (proj2 (proj2
    (too_small_threshold "short" (5 # 10000) default_config (Scenario.market "yes" [])
       Scenario.fresh [] {| high := 50100; low := 50000; close := 50050 |}
       {| high := 50020; low := 49990; close := 50000 |} eq_refl eq_refl eq_refl)))).
Defined.

(** X14. Sizing from the configuration (no [--size]): the policy name is
    read without regard to case; PERCENTAGE commits a share of the balance,
    MARGIN commits margin times leverage and ignores the balance,
    MARGIN_PERCENTAGE commits the share of the balance times leverage, and
    any other name is sized as a fixed quantity, the configured value. *)
Theorem config_policy_sizing (cfg : config) (balance price : Q) :
  let ty := Py.upper (position_size_type cfg) in
  let v := position_size_value cfg in
  let sized :=
    size_position (risk_manager_of None cfg) (fst (position_policy None cfg))
      (snd (position_policy None cfg)) balance price (leverage cfg) in
  (ty = "PERCENTAGE" -> sized = Py.div (balance * (v / 100)) price)
  /\ (ty = "MARGIN" -> sized = Py.div (v * leverage cfg) price)
  /\ (ty = "MARGIN_PERCENTAGE" ->
      sized = Py.div (balance * (v / 100) * leverage cfg) price)
  /\ (ty <> "PERCENTAGE" -> ty <> "MARGIN" -> ty <> "MARGIN_PERCENTAGE" ->
      sized = Some v).
Proof.
  cbv zeta. unfold size_position, risk_manager_of, position_policy, rm_type_of,
    RiskManager.calculate_qty.
  cbn [fst snd RiskManager.risk_type RiskManager.risk_value].
  repeat split.
  - intros ->. reflexivity.
  - intros ->. reflexivity.
  - intros ->. reflexivity.
  - intros H1 H2 H3. apply String.eqb_neq in H1, H2, H3.
    rewrite H1, H2, H3. reflexivity.
Qed.

Lemma config_policy_sizing_witness :
  let cfg := {| leverage := 5; sl_candle_multiplier := 2;
                tp_fixed_points := [300; 500; 800; 1000]%Q;
                move_sl_to_entry_when_tp_hit := SInt 1;
                position_size_type := "margin"; position_size_value := 100 |} in
  size_position (risk_manager_of None cfg) (fst (position_policy None cfg))
    (snd (position_policy None cfg)) 12345 50000 (leverage cfg)
  = Py.div (100 * 5) 50000.
Proof.
  intros cfg.
  exact (proj1 (proj2 (config_policy_sizing cfg 12345 50000)) eq_refl).
Defined.

(** ** The gates of [main] *)

Lemma new_trade_side_is_choice (args_side : string) :
  mem args_side new_trade_sides = true -> mem args_side choices = true.
Proof.
  unfold mem, new_trade_sides, choices. cbn [List.existsb].
  destruct (String.eqb args_side "LONG"), (String.eqb args_side "SHORT"),
    (String.eqb args_side "long"), (String.eqb args_side "short");
    cbn; congruence.
Qed.

Ltac count_orders :=
  repeat (rewrite order_calls_emit; cbn [is_order_call]);
  rewrite ?List.app_nil_r; cbn [file emit]; try reflexivity.

(** X15. Nothing is ordered and nothing is saved without the operator's
    yes: if the answer to the confirmation prompt is neither ["yes"] nor
    ["y"], a new-trade run ends without any order call and with the trade
    file as it was, whatever the market data, balance and gateway replies
    (it ends on missing credentials, on an exception, on a quantity that is
    too small, or on the refusal itself). *)
Theorem no_order_without_confirmation (args_side : string) (args_size : option Q)
    (cfg : config) (a : answers) (w : world) :
  mem args_side new_trade_sides = true ->
  mem (confirm a) ["yes"; "y"] = false ->
  let r := main args_side args_size cfg a w in
  file (snd r) = file w
  /\ order_calls (log (snd r)) = order_calls (log w)
  /\ (fst r = MissingApiKeys \/ fst r = Crashed \/ fst r = QuantityTooSmall
      \/ fst r = Declined).
Proof.
  intros Hside Hno. cbv zeta.
  destruct (api_keys a) eqn:Hkeys.
  2:{ unfold main. rewrite (new_trade_side_is_choice _ Hside), Hkeys. cbn. auto. }
  rewrite (main_opens_trade _ _ _ _ _ Hside Hkeys).
  unfold open_trade. cbv zeta.
  destruct (List.rev (frame a)) as [| last_row [| prev_candle rest]];
    [cbn [fst snd]; split; [| split]; [| count_orders | auto] ..|]; try reflexivity.
  destruct (size_position _ _ _ _ _ _) as [requested|];
    [| cbn [fst snd]; split; [| split]; [reflexivity | count_orders | auto]].
  destruct (Qle_bool (round_to_step requested) 0);
    [cbn [fst snd]; split; [| split]; [reflexivity | count_orders | auto 6] |].
  rewrite Hno. cbn [negb fst snd]. split; [| split]; [reflexivity | count_orders | auto 6].
Qed.

Lemma no_order_without_confirmation_witness :
  let r := main "LONG" None default_config (Scenario.market "no" []) Scenario.fresh in
  file (snd r) = Absent /\ order_calls (log (snd r)) = [] /\ fst r = Declined.
Proof.
  intros r.
  destruct (no_order_without_confirmation "LONG" None default_config
              (Scenario.market "no" []) Scenario.fresh eq_refl eq_refl)
    as (Hfile & Hcalls & _).
  split; [exact Hfile | split; [exact Hcalls | reflexivity]].
Defined.

(** X16. No protective order and no record without a confirmed entry: if
    the gateway's reply to the market order carries no id, a new-trade run
    places at most that one market order (on the buy side for LONG, the
    sell side for SHORT), no stop-loss and no target order, leaves the
    trade file as it was, and does not start monitoring. *)
Theorem failed_entry_places_nothing_else (args_side : string) (args_size : option Q)
    (cfg : config) (a : answers) (w : world) :
  mem args_side new_trade_sides = true ->
  has_id (order a) = false ->
  let r := main args_side args_size cfg a w in
  let order_side := if String.eqb (Py.upper args_side) "LONG" then "buy" else "sell" in
  file (snd r) = file w
  /\ (order_calls (log (snd r)) = order_calls (log w)
      \/ exists qty,
           order_calls (log (snd r))
           = (order_calls (log w) ++ [entry_order order_side qty])%list
           /\ fst r = MarketOrderFailed)
  /\ fst r <> Stopped /\ fst r <> NoStopLossId.
Proof.
  intros Hside Hfail. cbv zeta.
  destruct (api_keys a) eqn:Hkeys.
  2:{ unfold main. rewrite (new_trade_side_is_choice _ Hside), Hkeys. cbn.
      repeat split; auto; discriminate. }
  rewrite (main_opens_trade _ _ _ _ _ Hside Hkeys).
  unfold open_trade. cbv zeta.
  destruct (List.rev (frame a)) as [| last_row [| prev_candle rest]];
    [cbn [fst snd]; repeat split; try discriminate; left; count_orders ..|].
  destruct (size_position _ _ _ _ _ _) as [requested|];
    [| cbn [fst snd]; repeat split; try discriminate; left; count_orders].
  destruct (Qle_bool (round_to_step requested) 0);
    [cbn [fst snd]; repeat split; try discriminate; left; count_orders |].
  destruct (negb (mem (confirm a) ["yes"; "y"]));
    [cbn [fst snd]; repeat split; try discriminate; left; count_orders |].
  rewrite Hfail. cbn [negb fst snd]. repeat split; try discriminate.
  right. eexists. split; [| reflexivity]. count_orders.
Qed.

Lemma failed_entry_places_nothing_else_witness :
  let a := {| api_keys := true; frame := frame (Scenario.market "yes" []);
              balance := 1000; confirm := "y"; order := None;
              sl_resp := Scenario.reply_id "SL-1";
              tp_resp := fun _ => Scenario.reply_id "TP"; now := 1700000000;
              ticks := [] |} in
  let r := main "short" None default_config a Scenario.fresh in
  file (snd r) = Absent /\ fst r <> Stopped.
Proof.
  intros a r.
  destruct (failed_entry_places_nothing_else "short" None default_config a
              Scenario.fresh eq_refl eq_refl) as (Hfile & _ & Hexit & _).
  split; [exact Hfile | exact Hexit].
Defined.

(** ** What the monitor does to the trade file *)

Import Invariants.

Lemma fields_kept_refl (keys : list string) (f : trades_file) : fields_kept keys f f.
Proof.
  unfold fields_kept. induction (load_trades f); constructor; auto.
Qed.

Lemma fields_kept_trans (keys : list string) (f1 f2 f3 : trades_file) :
  fields_kept keys f1 f2 -> fields_kept keys f2 f3 -> fields_kept keys f1 f3.
Proof.
  unfold fields_kept. generalize (load_trades f1), (load_trades f2), (load_trades f3).
  intros l1 l2 l3 H12. revert l3.
  induction H12 as [| t1 t2 l1 l2 H _ IH]; intros l3 H23;
    inversion H23 as [| t2' t3 l2' l3' H' Hrest]; subst; constructor.
  - intros k Hk. rewrite (H' k Hk). exact (H k Hk).
  - now apply IH.
Qed.

Lemma update_trade_fields_kept (keys : list string) (trade_id : value) (key : string)
    (val : value) (f : trades_file) :
  In key keys -> fields_kept keys f (update_trade trade_id key val f).
Proof.
  intros Hin. unfold update_trade.
  destruct (update_first trade_id key val (load_trades f)) as [trades'|] eqn:Hupd;
    [| apply fields_kept_refl].
  apply update_first_pointwise in Hupd. unfold fields_kept. cbn [save_trades load_trades].
  eapply List.Forall2_impl; [| exact Hupd]. cbv beta.
  intros t t' [-> | ->] k Hk; [reflexivity |].
  rewrite lookup_insert_ne; [reflexivity |]. intros ->. contradiction.
Qed.

Lemma update_trade_empty (trade_id : value) (key : string) (val : value)
    (f : trades_file) :
  load_trades f = [] -> update_trade trade_id key val f = f.
Proof. intros H. unfold update_trade. now rewrite H. Qed.

Section MonitorFile.

Variables (symbol monitor_trigger_level targets entry_price side qty trade_id : value).

Lemma move_stop_file (t : tick) (l : locals) (w : world) :
  fields_kept monitor_keys (file w)
    (file (snd (move_stop symbol entry_price side qty trade_id t l w)))
  /\ (load_trades (file w) = [] ->
      file (snd (move_stop symbol entry_price side qty trade_id t l w)) = file w).
Proof.
  unfold move_stop, persist, emit.
  destruct (edit_succeeded (edit_resp t)); [| destruct (has_id (new_sl_resp t))];
    cbn [snd file]; split.
  - apply update_trade_fields_kept. now left.
  - apply update_trade_empty.
  - eapply fields_kept_trans; apply update_trade_fields_kept; cbn; auto.
  - intros H. rewrite (update_trade_empty _ "sl_order_id" _ _ H).
    now apply update_trade_empty.
  - apply fields_kept_refl.
  - reflexivity.
Qed.

Lemma loop_file (ticks : list tick) (l : locals) (w : world) :
  fields_kept monitor_keys (file w)
    (file (snd (snd (loop symbol monitor_trigger_level targets entry_price side qty
                       trade_id ticks l w))))
  /\ (load_trades (file w) = [] ->
      file (snd (snd (loop symbol monitor_trigger_level targets entry_price side qty
                        trade_id ticks l w))) = file w).
Proof.
  revert l w. induction ticks as [| t ticks IH]; intros l w; cbn [loop].
  - split; [apply fields_kept_refl | reflexivity].
  - unfold iteration.
    destruct (last (klines t)) as [row|]; [| apply (IH l (emit _ w))].
    destruct (trigger_observed monitor_trigger_level targets side l (close row))
      as [[|]|].
    + pose proof (move_stop_file t l (emit (get_klines symbol "1m" 1) w))
        as [Hkept Hempty].
      destruct (move_stop symbol entry_price side qty trade_id t l
                  (emit (get_klines symbol "1m" 1) w)) as [l' w'].
      cbn [snd emit file] in Hkept, Hempty.
      destruct (IH l' w') as [IHkept IHempty]. split.
      * eapply fields_kept_trans; eassumption.
      * intros H. rewrite IHempty; rewrite (Hempty H); auto.
    + apply (IH l (emit _ w)).
    + split; [apply fields_kept_refl | reflexivity].
Qed.

End MonitorFile.

Lemma monitor_keeps_records_aux (trade : gmap string value) (ticks : list tick)
    (w : world) :
  fields_kept monitor_keys (file w) (file (snd (monitor_trade trade ticks w)))
  /\ (load_trades (file w) = [] ->
      file (snd (monitor_trade trade ticks w)) = file w).
Proof.
  unfold monitor_trade.
  destruct (trade !! "symbol") as [symbol|];
    [| split; [apply fields_kept_refl | reflexivity]].
  destruct (negb (truthy (dict_get trade "sl_order_id" VNone)));
    [split; [apply fields_kept_refl | reflexivity] |].
  match goal with
  | |- context [loop ?s ?m ?tg ?e ?sd ?q ?i ticks ?l w] =>
      pose proof (loop_file s m tg e sd q i ticks l w) as Hloop;
      destruct (loop s m tg e sd q i ticks l w) as [e' [l' w']]
  end.
  exact Hloop.
Qed.

(** X17. The monitor never adds or removes a record and never changes a
    field other than [sl_moved] and [sl_order_id]: after any run the file
    holds as many records as before and each record agrees with its
    earlier self on every other field (id, symbol, side, quantity, entry
    price, targets, ...). If the collection was empty, missing or
    unreadable, the file is left exactly as it was. *)
Theorem monitor_keeps_records (trade : gmap string value) (ticks : list tick)
    (w : world) :
  let w' := snd (monitor_trade trade ticks w) in
  fields_kept ["sl_moved"; "sl_order_id"] (file w) (file w')
  /\ List.length (load_trades (file w')) = List.length (load_trades (file w))
  /\ (load_trades (file w) = [] -> file w' = file w).
Proof.
  cbv zeta.
  pose proof (monitor_keeps_records_aux trade ticks w) as H.
  destruct H as [Hkept Hempty].
  split; [exact Hkept | split; [| exact Hempty]].
  symmetry. eapply Forall2_length, Hkept.
Qed.

(** ** From the entry to the monitor *)

Lemma placed_ids_step (replies : nat -> response) (i n : nat) :
  placed_ids replies i (S n)
  = ((if has_id (replies i) then [id_of (replies i)] else [])
     ++ placed_ids replies (S i) n)%list.
Proof.
  unfold placed_ids. cbn [List.seq List.map List.filter].
  now destruct (has_id (replies i)).
Qed.

Lemma place_targets_ids (sl_side : string) (chunk_qty : Q) (replies : nat -> response)
    (targets : list Q) (i : nat) (tp_ids : list scalar) (w : world) :
  fst (place_targets "B-BTC_USDT" sl_side chunk_qty replies i targets tp_ids w)
  = (tp_ids ++ placed_ids replies i (List.length targets))%list.
Proof.
  revert i tp_ids w. induction targets as [| t rest IH]; intros i tp_ids w;
    cbn [place_targets List.length].
  - unfold placed_ids. cbn. now rewrite List.app_nil_r.
  - rewrite IH, placed_ids_step.
    destruct (has_id (replies i)); [now rewrite <- List.app_assoc | reflexivity].
Qed.

Lemma placed_ids_length (replies : nat -> response) (i n : nat) :
  (List.length (placed_ids replies i n) <= n)%nat
  /\ ((forall j, (i <= j < i + n)%nat -> has_id (replies j) = true) ->
      placed_ids replies i n = List.map (fun j => id_of (replies j)) (List.seq i n)).
Proof.
  revert i. induction n as [| n IH]; intros i.
  - split; [cbn; lia | reflexivity].
  - rewrite placed_ids_step. destruct (IH (S i)) as [Hlen Hall]. split.
    + destruct (has_id (replies i)); cbn [List.length app]; lia.
    + intros H. rewrite (H i) by lia. cbn [List.seq List.map app]. f_equal.
      apply Hall. intros j Hj. apply H. lia.
Qed.

(** X18. For target prices that are floats and replies that are each
    [None] or a JSON object, the take-profit loop places one limit order
    per target, in the order of the targets: a refused target (no reply,
    or a reply without id) does not stop the later ones. The ids it
    collects are those of the accepted placements, in order, so there are
    at most as many ids as targets, and exactly one per target when every
    placement is accepted. *)
Theorem target_loop_places_all_and_keeps_accepted_ids (sl_side : string)
    (chunk_qty : Q) (replies : nat -> response) (targets : list Q) (w : world) :
  let r := place_targets "B-BTC_USDT" sl_side chunk_qty replies 0 targets [] w in
  log (snd r) = (log w ++ List.map (target_order sl_side chunk_qty) targets)%list
  /\ file (snd r) = file w
  /\ fst r = placed_ids replies 0 (List.length targets)
  /\ (List.length (fst r) <= List.length targets)%nat
  /\ ((forall j, (j < List.length targets)%nat -> has_id (replies j) = true) ->
      fst r = List.map (fun j => id_of (replies j)) (List.seq 0 (List.length targets))).
Proof.
  cbv zeta. rewrite place_targets_world, place_targets_ids. cbn [log file app].
  destruct (placed_ids_length replies 0 (List.length targets)) as [Hlen Hall].
  repeat split; try assumption.
  intros H. apply Hall. intros j Hj. apply H. lia.
Qed.

Lemma truthy_id_or_none (resp : response) :
  truthy_scalar (id_or_none resp) = has_id resp.
Proof.
  unfold id_or_none, has_id. destruct resp as [d|]; [| reflexivity].
  now destruct (size d =? 0)%nat.
Qed.

Lemma trade_record_fields (now : Z) (symbol side : string) (qty entry_price : Q)
    (sl_order_id : value) (tp_ids : list scalar) (targets : list Q)
    (monitor_trigger : value) :
  let record :=
    trade_record now symbol side qty entry_price sl_order_id tp_ids targets
      monitor_trigger in
  record !! "id" = Some (VScalar (SStr (Py.str_of_int now)))
  /\ record !! "symbol" = Some (VScalar (SStr symbol))
  /\ record !! "side" = Some (VScalar (SStr side))
  /\ record !! "qty" = Some (VScalar (SFloat qty))
  /\ record !! "entry_price" = Some (VScalar (SFloat entry_price))
  /\ record !! "sl_order_id" = Some sl_order_id
  /\ record !! "tp_order_ids" = Some (VList tp_ids)
  /\ record !! "targets" = Some (VList (List.map SFloat targets))
  /\ record !! "monitor_trigger_level" = Some monitor_trigger
  /\ record !! "sl_moved" = Some VFalse.
Proof.
  cbv zeta. unfold trade_record.
  repeat split; now rewrite ?lookup_insert_ne, lookup_insert_eq by discriminate.
Qed.

Lemma monitor_reads_back_record_aux (now : Z) (symbol side : string)
    (qty entry_price : Q) (sl_order_id : value) (tp_ids : list scalar)
    (targets : list Q) (monitor_trigger : value) (ticks : list tick) (w : world) :
  let record :=
    trade_record now symbol side qty entry_price sl_order_id tp_ids targets
      monitor_trigger in
  let run :=
    loop (SStr symbol) monitor_trigger (VList (List.map SFloat targets))
      (SFloat entry_price) (SStr side) (SFloat qty) (SStr (Py.str_of_int now)) ticks
      {| Supervisor.sl_order_id := sl_order_id; sl_moved := VFalse |} w in
  (truthy sl_order_id = true ->
     monitor_trade record ticks w = (fst run, snd (snd run)))
  /\ (truthy sl_order_id = false -> monitor_trade record ticks w = (NoStopLossId, w)).
Proof.
  cbv zeta.
  pose proof (trade_record_fields now symbol side qty entry_price sl_order_id tp_ids
                targets monitor_trigger) as H.
  cbv zeta in H.
  destruct H as (Hid & Hsym & Hside & Hqty & Hentry & Hsl & _ & Htg & Htrig & Hmoved).
  unfold monitor_trade, dict_get.
  rewrite Hid, Hsym, Hside, Hqty, Hentry, Hsl, Htg, Htrig, Hmoved.
  split; intros Htruthy; rewrite Htruthy; cbn [negb]; [| reflexivity].
  now destruct (loop _ _ _ _ _ _ _ _ _ _) as [e [l' w']].
Qed.

(** X19. The monitor reads back from a record written by [main] exactly
    what [main] put there: monitoring such a record whose stop-loss id is
    set is the loop run with the record's symbol, trigger level, targets,
    entry price, side, quantity and id, starting with that stop-loss id and
    the flag unset; with a stop-loss id that is [None] or empty it returns
    at once. *)
Theorem monitor_reads_back_record (now : Z) (symbol side : string) (qty entry_price : Q)
    (sl_order_id : value) (tp_ids : list scalar) (targets : list Q)
    (monitor_trigger : value) (ticks : list tick) (w : world) :
  let record :=
    trade_record now symbol side qty entry_price sl_order_id tp_ids targets
      monitor_trigger in
  let run :=
    loop (SStr symbol) monitor_trigger (VList (List.map SFloat targets))
      (SFloat entry_price) (SStr side) (SFloat qty) (SStr (Py.str_of_int now)) ticks
      {| Supervisor.sl_order_id := sl_order_id; sl_moved := VFalse |} w in
  (truthy sl_order_id = true ->
     monitor_trade record ticks w = (fst run, snd (snd run)))
  /\ (truthy sl_order_id = false -> monitor_trade record ticks w = (NoStopLossId, w)).
Proof.
  apply monitor_reads_back_record_aux.
Qed.

Lemma monitor_reads_back_record_witness :
  monitor_trade Scenario.trade [Scenario.pass 50300 Scenario.accepted None]
    Scenario.stored
  = (Stopped,
     {| file := Holds [<["sl_moved" := VTrue]> Scenario.trade];
        log := [ get_klines Scenario.symbol "1m" 1;
                 edit_order (SStr "SL-1") Scenario.entry_price ] |}).
Proof.
  etransitivity.
  - exact (proj1 (monitor_reads_back_record 1700000000 "B-BTC_USDT" "LONG" (4 # 1000)
                    50000 (SStr "SL-1")
                    [SStr "TP-1"; SStr "TP-2"; SStr "TP-3"; SStr "TP-4"]
                    [50300; 50500; 50800; 51000]%Q (SInt 1)
                    [Scenario.pass 50300 Scenario.accepted None] Scenario.stored)
             eq_refl).
  - vm_compute. reflexivity.
Defined.

Section ConfirmedEntry.

Variables (side : string) (args_size : option Q) (cfg : config) (a : answers) (w : world).
Variables (older : list candle) (prev_candle last_row : candle) (requested : Q).

Hypothesis Hframe : frame a = (older ++ [prev_candle; last_row])%list.
Hypothesis Hsized :
  size_position (risk_manager_of args_size cfg) (fst (position_policy args_size cfg))
    (snd (position_policy args_size cfg)) (balance a) (close last_row) (leverage cfg)
  = Some requested.
Hypothesis Hpos : Qle_bool (round_to_step requested) 0 = false.
Hypothesis Hyes : mem (confirm a) ["yes"; "y"] = true.
Hypothesis Hentry : has_id (order a) = true.

(** The record and the world handed to the monitor by a confirmed entry. *)
Lemma open_trade_hands_over :
  let qty := round_to_step requested in
  let price := close last_row in
  let sl_price :=
    RiskManager.get_candle_based_stop_loss price side (high prev_candle)
      (low prev_candle) (sl_candle_multiplier cfg) in
  let targets :=
    RiskManager.calculate_fixed_point_targets price side (tp_fixed_points cfg) in
  let order_side := if String.eqb side "LONG" then "buy" else "sell" in
  let sl_side := if String.eqb order_side "buy" then "sell" else "buy" in
  let record :=
    trade_record (now a) "B-BTC_USDT" side qty price (VScalar (id_or_none (sl_resp a)))
      (placed_ids (tp_resp a) 0 (List.length targets)) targets
      (move_sl_to_entry_when_tp_hit cfg) in
  open_trade side args_size cfg a w
  = monitor_trade record (ticks a)
      {| file := Holds (load_trades (file w) ++ [record]);
         log := (log w ++ sizing_calls cfg
                 ++ [ show_plan side qty price sl_price targets;
                      entry_order order_side qty;
                      stop_order sl_side qty sl_price ]
                 ++ List.map (target_order sl_side (Py.fmt3 (qty / 4))) targets)%list |}.
Proof.
  unfold open_trade. cbv zeta.
  rewrite (rev_frame _ _ _ _ Hframe), Hsized, Hpos, Hyes, Hentry. cbn [negb].
  unfold entry_price_executed.
  match goal with
  | |- context [place_targets ?s ?sd ?c ?r ?i ?tg ?ids ?w0] =>
      pose proof (place_targets_world sd c r tg i ids w0) as Hw;
      pose proof (place_targets_ids sd c r tg i ids w0) as Hids;
      destruct (place_targets s sd c r i tg ids w0) as [tp_ids w1]
  end.
  cbn [fst snd app] in Hw, Hids. subst w1 tp_ids.
  unfold add_trade, save_trades, id_or_none.
  unfold emit, sizing_calls, entry_order, stop_order. cbn [file log].
  rewrite <- !List.app_assoc. reflexivity.
Qed.

End ConfirmedEntry.



(** X21. If the stop-loss placement is not accepted (no reply, an empty
    reply, or a reply without id), the run still places every target order
    and saves the record, with [sl_order_id] unset, and then returns without
    monitoring: the position is open, unprotected and unsupervised. *)
Theorem failed_stop_loss_ends_unmonitored (args_side : string) (args_size : option Q)
    (cfg : config) (a : answers) (w : world)
    (older : list candle) (prev_candle last_row : candle) (requested : Q) :
  mem args_side new_trade_sides = true ->
  api_keys a = true ->
  frame a = (older ++ [prev_candle; last_row])%list ->
  size_position (risk_manager_of args_size cfg) (fst (position_policy args_size cfg))
    (snd (position_policy args_size cfg)) (balance a) (close last_row) (leverage cfg)
  = Some requested ->
  Qle_bool (round_to_step requested) 0 = false ->
  mem (confirm a) ["yes"; "y"] = true ->
  has_id (order a) = true ->
  has_id (sl_resp a) = false ->
  let side := Py.upper args_side in
  let qty := round_to_step requested in
  let price := close last_row in
  let sl_price :=
    RiskManager.get_candle_based_stop_loss price side (high prev_candle)
      (low prev_candle) (sl_candle_multiplier cfg) in
  let targets :=
    RiskManager.calculate_fixed_point_targets price side (tp_fixed_points cfg) in
  let order_side := if String.eqb side "LONG" then "buy" else "sell" in
  let sl_side := if String.eqb order_side "buy" then "sell" else "buy" in
  let record :=
    trade_record (now a) "B-BTC_USDT" side qty price (VScalar (id_or_none (sl_resp a)))
      (placed_ids (tp_resp a) 0 (List.length targets)) targets
      (move_sl_to_entry_when_tp_hit cfg) in
  truthy (dict_get record "sl_order_id" VNone) = false
  /\ main args_side args_size cfg a w
     = (NoStopLossId,
        {| file := Holds (load_trades (file w) ++ [record]);
           log := (log w ++ sizing_calls cfg
                   ++ [ show_plan side qty price sl_price targets;
                        entry_order order_side qty;
                        stop_order sl_side qty sl_price ]
                   ++ List.map (target_order sl_side (Py.fmt3 (qty / 4))) targets)%list |}).
Proof.
  intros Hside Hkeys Hframe Hsized Hpos Hyes Hentry Hstop
    side qty price sl_price targets order_side sl_side record.
  assert (Hfalsy : truthy (VScalar (id_or_none (sl_resp a))) = false).
  { cbn [truthy]. now rewrite truthy_id_or_none. }
  split.
  - unfold dict_get.
    destruct (trade_record_fields (now a) "B-BTC_USDT" side qty price
                (VScalar (id_or_none (sl_resp a)))
                (placed_ids (tp_resp a) 0 (List.length targets)) targets
                (move_sl_to_entry_when_tp_hit cfg))
      as (_ & _ & _ & _ & _ & Hsl & _).
    fold record in Hsl. now rewrite Hsl.
  - rewrite (main_opens_trade _ _ _ _ _ Hside Hkeys). fold side.
    rewrite (open_trade_hands_over side args_size cfg a w older prev_candle last_row
               requested Hframe Hsized Hpos Hyes Hentry).
    cbv zeta. fold qty price sl_price targets order_side sl_side. fold record.
    apply (proj2 (monitor_reads_back_record_aux (now a) "B-BTC_USDT" side qty price
                    (VScalar (id_or_none (sl_resp a)))
                    (placed_ids (tp_resp a) 0 (List.length targets)) targets
                    (move_sl_to_entry_when_tp_hit cfg) (ticks a) _) Hfalsy).
Qed.

Lemma failed_stop_loss_ends_unmonitored_witness :
  let a := {| api_keys := true; frame := frame (Scenario.market "yes" []);
              balance := 1000; confirm := "yes"; order := Scenario.reply_id "E-1";
              sl_resp := None; tp_resp := fun _ => Scenario.reply_id "TP";
              now := 1700000000;
              ticks := [Scenario.pass 50300 Scenario.accepted None] |} in
  let r := main "LONG" (Some (4 # 1000)) default_config a Scenario.fresh in
  fst r = NoStopLossId
  /\ order_calls (log (snd r))
     = (entry_order "buy" (4 # 1000)
        :: stop_order "sell" (4 # 1000) 49800
        :: List.map (target_order "sell" (1 # 1000)) [50300; 50500; 50800; 51000]%Q)%list
  /\ List.length (load_trades (file (snd r))) = 1%nat.
Proof.
  intros a r.
  destruct (failed_stop_loss_ends_unmonitored "LONG" (Some (4 # 1000)) default_config a
              Scenario.fresh []
              {| high := 50100; low := 50000; close := 50050 |}
              {| high := 50020; low := 49990; close := 50000 |} (4 # 1000)
              eq_refl eq_refl eq_refl eq_refl eq_refl eq_refl eq_refl eq_refl)
    as [_ Hrun].
  subst r. rewrite Hrun. repeat split.
Defined.

(** ** The breakeven trigger *)

Lemma Qle_bool_inject (a b : Z) : Qle_bool (inject_Z a) (inject_Z b) = (a <=? b)%Z.
Proof. unfold Qle_bool, inject_Z. cbn. now rewrite !Z.mul_1_r. Qed.

Lemma Qlt_bool_inject (a b : Z) : Py.Qlt_bool (inject_Z a) (inject_Z b) = (a <? b)%Z.
Proof.
  unfold Py.Qlt_bool. rewrite Qle_bool_inject.
  destruct (Z.leb_spec b a), (Z.ltb_spec a b); try reflexivity; lia.
Qed.

Lemma trigger_index (z : Z) (ts : list scalar) (trg : scalar) (side : value)
    (l : locals) (price : Q) :
  truthy (sl_moved l) = false ->
  (1 <= z)%Z ->
  ts !! Z.to_nat (z - 1) = Some trg ->
  trigger_observed (SInt z) (VList ts) side l price = price_hit side price trg.
Proof.
  intros Hflag Hz Hlook.
  pose proof (lookup_lt_Some _ _ _ Hlook) as Hlen.
  unfold trigger_observed, trigger_enabled, target_idx, in_range, len_targets, subscript.
  cbn [as_num]. change 0%Q with (inject_Z 0).
  rewrite Qlt_bool_inject, Qle_bool_inject, Qlt_bool_inject, Hflag, Hlook.
  replace (0 <? z)%Z with true by (symmetry; apply Z.ltb_lt; lia).
  replace (0 <=? z - 1)%Z with true by (symmetry; apply Z.leb_le; lia).
  replace (z - 1 <? Z.of_nat (List.length ts))%Z with true
    by (symmetry; apply Z.ltb_lt; lia).
  reflexivity.
Qed.

(** X22. The trigger level is a 1-based index into the targets: with the
    flag unset and level [z >= 1] pointing at a numeric target, a LONG
    trade observes the trigger exactly when the price is at or above
    target number [z], a SHORT trade exactly when the price is at or below
    it, and a trade whose side is neither never does. *)
Theorem trigger_level_is_one_based (z : Z) (ts : list scalar) (trg : scalar) (t : Q)
    (side : value) (l : locals) (price : Q) :
  truthy (sl_moved l) = false ->
  (1 <= z)%Z ->
  ts !! Z.to_nat (z - 1) = Some trg ->
  as_num trg = Some t ->
  (side = VScalar (SStr "LONG") ->
     (trigger_observed (SInt z) (VList ts) side l price = Some true <-> (t <= price)%Q))
  /\ (side = VScalar (SStr "SHORT") ->
      (trigger_observed (SInt z) (VList ts) side l price = Some true <-> (price <= t)%Q))
  /\ (value_eqb side (SStr "LONG") = false -> value_eqb side (SStr "SHORT") = false ->
      trigger_observed (SInt z) (VList ts) side l price = Some false).
Proof.
  intros Hflag Hz Hlook Hnum.
  rewrite (trigger_index z ts trg side l price Hflag Hz Hlook).
  unfold price_hit. rewrite Hnum. repeat split.
  - subst side. cbn. intros H. injection H as H. now apply Qle_bool_iff.
  - subst side. cbn. intros H. f_equal. now apply Qle_bool_iff.
  - subst side. cbn. intros H. injection H as H. now apply Qle_bool_iff.
  - subst side. cbn. intros H. f_equal. now apply Qle_bool_iff.
  - intros -> ->. reflexivity.
Qed.

Lemma trigger_level_is_one_based_witness :
  trigger_observed (SInt 2)
    (VList [SFloat 50300; SFloat 50500; SFloat 50800; SFloat 51000])
    (SStr "LONG") Scenario.start 50500 = Some true
  <-> (50500 <= 50500)%Q.
Proof.
  exact (proj1 (trigger_level_is_one_based 2
                  [SFloat 50300; SFloat 50500; SFloat 50800; SFloat 51000]
                  (SFloat 50500) 50500 (SStr "LONG") Scenario.start 50500
                  eq_refl ltac:(discriminate) eq_refl eq_refl) eq_refl).
Defined.

Section QuietMonitor.

Variables (symbol monitor_trigger_level targets entry_price side qty trade_id : value).

(** A run in which no pass observes the trigger (or raises). *)
Lemma loop_without_trigger (ticks : list tick) (l : locals) (w : world) :
  (forall l' price,
      trigger_observed monitor_trigger_level targets side l' price = Some false) ->
  loop symbol monitor_trigger_level targets entry_price side qty trade_id ticks l w
  = (Stopped,
     (l, {| file := file w;
            log := (log w ++ List.repeat (get_klines symbol "1m" 1)
                               (List.length ticks))%list |})).
Proof.
  intros Hquiet. revert w. induction ticks as [| t ticks IH]; intros w;
    cbn [loop List.length List.repeat].
  - rewrite List.app_nil_r. now rewrite world_eta.
  - unfold iteration.
    destruct (last (klines t)) as [row|]; [rewrite Hquiet |];
      rewrite IH; unfold emit; cbn [file log];
      now rewrite <- List.app_assoc.
Qed.

End QuietMonitor.

(** X23. A trigger level of 0 or less disables the migration, and a level
    beyond the number of targets never fires: in both cases a run of the
    loop only fetches prices, once per pass, ends by the interrupt alone,
    and leaves the stop-loss id, the flag and the trade file untouched. *)
Theorem trigger_disabled_or_out_of_range
    (symbol targets entry_price side qty trade_id : value) (z : Z)
    (ticks : list tick) (l : locals) (w : world) :
  (z <= 0)%Z \/ (exists ts, targets = VList ts /\ (Z.of_nat (List.length ts) < z)%Z) ->
  loop symbol (SInt z) targets entry_price side qty trade_id ticks l w
  = (Stopped,
     (l, {| file := file w;
            log := (log w ++ List.repeat (get_klines symbol "1m" 1)
                               (List.length ticks))%list |})).
Proof.
  intros Hz. apply loop_without_trigger. intros l' price.
  unfold trigger_observed, trigger_enabled, target_idx, in_range, len_targets.
  cbn [as_num]. change 0%Q with (inject_Z 0). rewrite Qlt_bool_inject.
  destruct Hz as [Hz | (ts & -> & Hz)].
  - replace (0 <? z)%Z with false by (symmetry; apply Z.ltb_ge; lia). reflexivity.
  - replace (0 <? z)%Z with true by (symmetry; apply Z.ltb_lt; lia).
    destruct (truthy (sl_moved l')); [reflexivity |].
    rewrite Qle_bool_inject, Qlt_bool_inject.
    replace (0 <=? z - 1)%Z with true by (symmetry; apply Z.leb_le; lia).
    replace (z - 1 <? Z.of_nat (List.length ts))%Z with false
      by (symmetry; apply Z.ltb_ge; lia).
    reflexivity.
Qed.

Lemma trigger_disabled_or_out_of_range_witness :
  loop Scenario.symbol (SInt 0) Scenario.targets Scenario.entry_price Scenario.side
    Scenario.qty Scenario.trade_id
    [Scenario.pass 50300 Scenario.accepted None; Scenario.pass 51000 Scenario.accepted None]
    Scenario.start Scenario.stored
  = (Stopped,
     (Scenario.start,
      {| file := file Scenario.stored;
         log := [get_klines Scenario.symbol "1m" 1; get_klines Scenario.symbol "1m" 1] |})).
Proof.
  apply (trigger_disabled_or_out_of_range Scenario.symbol Scenario.targets
           Scenario.entry_price Scenario.side Scenario.qty Scenario.trade_id 0).
  left. reflexivity.
Defined.

(** X24. A record whose [sl_moved] is already true is never migrated
    again, also by a later process: monitoring it (as RESUME does) makes no
    edit, cancel or placement call and leaves the trade file as it is,
    whatever prices are seen. *)
Theorem migrated_record_is_left_alone (trade : gmap string value) (ticks : list tick)
    (w : world) :
  truthy (dict_get trade "sl_moved" VFalse) = true ->
  order_calls (log (snd (monitor_trade trade ticks w))) = order_calls (log w)
  /\ file (snd (monitor_trade trade ticks w)) = file w.
Proof.
  intros Hmoved. unfold monitor_trade.
  destruct (trade !! "symbol") as [symbol|]; [| now split].
  destruct (negb (truthy (dict_get trade "sl_order_id" VNone))); [now split |].
  match goal with
  | |- context [loop ?s ?m ?tg ?e ?sd ?q ?i ticks ?l w] =>
      destruct (loop_after_move s m tg e sd q i ticks l w Hmoved) as (_ & Hfile & Hcalls);
      destruct (loop s m tg e sd q i ticks l w) as [e' [l' w']]
  end.
  cbn [fst snd] in *. now split.
Qed.

Lemma migrated_record_is_left_alone_witness :
  let trade := <["sl_moved" := VTrue]> Scenario.trade in
  let ticks := [Scenario.pass 50300 Scenario.accepted None] in
  order_calls (log (snd (monitor_trade trade ticks Scenario.stored))) = []
  /\ file (snd (monitor_trade trade ticks Scenario.stored)) = file Scenario.stored.
Proof.
  intros trade ticks.
  apply (migrated_record_is_left_alone trade ticks Scenario.stored). reflexivity.
Defined.

(** ** A migration that succeeds *)

(** X25. When the in-place edit is accepted on a pass that observes the
    trigger, the pass makes the price fetch and that edit only (no cancel,
    no placement), sets the flag, keeps the stop-loss id, and writes
    [sl_moved = True] into the first record carrying the trade's id. If no
    record carries that id the file is left as it is: the flag then lives
    in the process only. *)
Theorem accepted_edit_is_persisted
    (symbol monitor_trigger_level targets entry_price side qty trade_id : value)
    (t : tick) (row : candle) (l : locals) (w : world) :
  last (klines t) = Some row ->
  trigger_observed monitor_trigger_level targets side l (close row) = Some true ->
  edit_succeeded (edit_resp t) = true ->
  let moved := {| sl_order_id := sl_order_id l; sl_moved := VTrue |} in
  let calls :=
    (log w ++ [get_klines symbol "1m" 1; edit_order (sl_order_id l) entry_price])%list in
  let result :=
    iteration symbol monitor_trigger_level targets entry_price side qty trade_id t l w in
  (forall before record after,
      load_trades (file w) = (before ++ record :: after)%list ->
      id_absent trade_id before ->
      value_eqb (dict_get record "id" VNone) trade_id = true ->
      result
      = inr (moved,
             {| file := Holds (before ++ <["sl_moved" := VTrue]> record :: after);
                log := calls |}))
  /\ (id_absent trade_id (load_trades (file w)) ->
      result = inr (moved, {| file := file w; log := calls |})).
Proof.
  intros Hrow Hhit Hedit moved calls result. subst result.
  unfold iteration, move_stop. rewrite Hrow, Hhit, Hedit.
  unfold persist, emit. cbn [file log]. subst calls. rewrite <- List.app_assoc.
  split.
  - intros before record after Hload Habs Hid.
    now rewrite (update_trade_first_match_aux _ _ _ _ _ _ _ Hload Habs Hid).
  - intros Habs. unfold update_trade.
    now rewrite (update_first_absent _ _ _ _ Habs).
Qed.

Lemma accepted_edit_is_persisted_witness :
  iteration Scenario.symbol (SInt 1) Scenario.targets Scenario.entry_price Scenario.side
    Scenario.qty Scenario.trade_id (Scenario.pass 50300 Scenario.accepted None)
    Scenario.start Scenario.stored
  = inr ({| sl_order_id := SStr "SL-1"; sl_moved := VTrue |},
         {| file := Holds [<["sl_moved" := VTrue]> Scenario.trade];
            log := [ get_klines Scenario.symbol "1m" 1;
                     edit_order (SStr "SL-1") Scenario.entry_price ] |}).
Proof.
  exact (proj1 (accepted_edit_is_persisted Scenario.symbol (SInt 1) Scenario.targets
                  Scenario.entry_price Scenario.side Scenario.qty Scenario.trade_id
                  (Scenario.pass 50300 Scenario.accepted None) (Scenario.row 50300)
                  Scenario.start Scenario.stored eq_refl eq_refl eq_refl)
           [] Scenario.trade [] eq_refl (List.Forall_nil _) eq_refl).
Defined.

(** X26. When the edit is refused and the replacement stop-loss is
    accepted, the pass cancels the old order, places a stop order at the
    entry price for the trade's quantity (sell side for LONG, buy side
    otherwise), takes the id of the reply as the new stop-loss id, sets the
    flag, and writes both the new id and [sl_moved = True] into the first
    record carrying the trade's id. *)
Theorem accepted_replacement_is_persisted
    (symbol monitor_trigger_level targets entry_price side qty trade_id : value)
    (t : tick) (row : candle) (l : locals) (w : world)
    (before after : list (gmap string value)) (record : gmap string value) :
  last (klines t) = Some row ->
  trigger_observed monitor_trigger_level targets side l (close row) = Some true ->
  edit_succeeded (edit_resp t) = false ->
  has_id (new_sl_resp t) = true ->
  load_trades (file w) = (before ++ record :: after)%list ->
  id_absent trade_id before ->
  value_eqb (dict_get record "id" VNone) trade_id = true ->
  let new_id := VScalar (id_of (new_sl_resp t)) in
  let sl_side := if value_eqb side (SStr "LONG") then "sell" else "buy" in
  truthy new_id = true
  /\ iteration symbol monitor_trigger_level targets entry_price side qty trade_id t l w
     = inr ({| sl_order_id := new_id; sl_moved := VTrue |},
            {| file :=
                 Holds (before
                        ++ <["sl_moved" := VTrue]> (<["sl_order_id" := new_id]> record)
                        :: after);
               log := (log w ++
                       [ get_klines symbol "1m" 1;
                         edit_order (sl_order_id l) entry_price;
                         cancel_order (sl_order_id l);
                         place_order symbol sl_side qty "STOP_MARKET" VNone
                           {[ "stopPrice" := entry_price ]} ])%list |}).
Proof.
  intros Hrow Hhit Hedit Hplace Hload Habs Hid new_id sl_side. split.
  - subst new_id. unfold has_id, id_of in *. cbn [truthy].
    destruct (new_sl_resp t) as [d|]; [| discriminate].
    now apply Bool.andb_true_iff in Hplace.
  - unfold iteration, move_stop. rewrite Hrow, Hhit, Hedit, Hplace.
    fold sl_side. fold new_id. unfold persist, emit. cbn [file log sl_order_id].
    rewrite (update_trade_first_match_aux _ "sl_order_id" new_id _ _ _ _ Hload Habs Hid).
    rewrite (update_trade_first_match_aux trade_id "sl_moved" VTrue
               (Holds (before ++ <["sl_order_id" := new_id]> record :: after))
               before after (<["sl_order_id" := new_id]> record) eq_refl Habs).
    + rewrite <- !List.app_assoc. reflexivity.
    + unfold dict_get in *. now rewrite lookup_insert_ne.
Qed.

Lemma accepted_replacement_is_persisted_witness :
  iteration Scenario.symbol (SInt 1) Scenario.targets Scenario.entry_price Scenario.side
    Scenario.qty Scenario.trade_id
    (Scenario.pass 50300 Scenario.refused (Scenario.reply_id "SL-2"))
    Scenario.start Scenario.stored
  = inr ({| sl_order_id := SStr "SL-2"; sl_moved := VTrue |},
         {| file := Holds [<["sl_moved" := VTrue]>
                             (<["sl_order_id" := VScalar (SStr "SL-2")]> Scenario.trade)];
            log := [ get_klines Scenario.symbol "1m" 1;
                     edit_order (SStr "SL-1") Scenario.entry_price;
                     cancel_order (SStr "SL-1");
                     place_order Scenario.symbol "sell" Scenario.qty "STOP_MARKET" VNone
                       {[ "stopPrice" := Scenario.entry_price ]} ] |}).
Proof.
  exact (proj2 (accepted_replacement_is_persisted Scenario.symbol (SInt 1)
                  Scenario.targets Scenario.entry_price Scenario.side Scenario.qty
                  Scenario.trade_id
                  (Scenario.pass 50300 Scenario.refused (Scenario.reply_id "SL-2"))
                  (Scenario.row 50300) Scenario.start Scenario.stored [] []
                  Scenario.trade eq_refl eq_refl eq_refl eq_refl eq_refl
                  (List.Forall_nil _) eq_refl)).
Defined.

(** ** Exceptions in the loop *)

Lemma trigger_observed_defined (monitor_trigger_level targets side : value)
    (l : locals) (price : Q) :
  integer_level monitor_trigger_level ->
  numeric_list targets ->
  exists b, trigger_observed monitor_trigger_level targets side l price = Some b.
Proof.
  intros Hlevel (ts & -> & Hnum).
  assert (Hidx : exists z, (monitor_trigger_level = VScalar (SInt (z + 1))
                            \/ (exists b, monitor_trigger_level = VScalar (SBool b)
                                          /\ z = ((if b then 1 else 0) - 1)%Z))
                           /\ target_idx monitor_trigger_level = Some (SInt z)).
  { destruct Hlevel as [[z ->] | [b ->]].
    - exists (z - 1)%Z. split; [left; f_equal; f_equal; f_equal; lia | reflexivity].
    - eexists. split; [right; eauto | reflexivity]. }
  destruct Hidx as (z & Hshape & Hidx).
  unfold trigger_observed. rewrite Hidx.
  assert (Hen : exists e, trigger_enabled monitor_trigger_level = Some e).
  { destruct Hshape as [-> | (b & -> & _)]; cbn; eauto. }
  destruct Hen as [[|] ->]; [| eauto].
  destruct (truthy (sl_moved l)); [eauto |].
  unfold in_range, len_targets, subscript. cbn [as_num].
  change 0%Q with (inject_Z 0). rewrite Qle_bool_inject, Qlt_bool_inject.
  destruct (Z.leb_spec 0 z) as [Hlo |]; [| eauto].
  destruct (Z.ltb_spec z (Z.of_nat (List.length ts))) as [Hhi |]; [| eauto].
  destruct (lookup_lt_is_Some_2 ts (Z.to_nat z) ltac:(lia)) as [trg Htrg].
  rewrite Htrg.
  rewrite List.Forall_forall in Hnum.
  destruct (Hnum trg) as [t Ht].
  { apply list_elem_of_In. eapply list_elem_of_lookup_2; eauto. }
  unfold price_hit. rewrite Ht.
  destruct (value_eqb side (SStr "LONG")); [eauto |].
  destruct (value_eqb side (SStr "SHORT")); eauto.
Qed.

(** X27. With a trigger level that is an [int] and targets that are a list
    of numbers, the trigger test of a pass (lines 95-106) never raises:
    whatever the side, the price and the flag, it gives a definite answer,
    trigger observed or not. (A [float] level does raise, see X28.) *)
Theorem integer_level_trigger_test_never_raises
    (monitor_trigger_level targets side : value) (l : locals) (price : Q) :
  integer_level monitor_trigger_level ->
  numeric_list targets ->
  exists b, trigger_observed monitor_trigger_level targets side l price = Some b.
Proof. apply trigger_observed_defined. Qed.

Lemma integer_level_trigger_test_never_raises_witness :
  exists b,
    trigger_observed (SInt 1) Scenario.targets Scenario.side Scenario.start 50300
    = Some b.
Proof.
  apply integer_level_trigger_test_never_raises.
  - left. eexists. reflexivity.
  - eexists. split; [reflexivity |]. repeat constructor; eexists; reflexivity.
Defined.

(** X28. A trigger level stored as a float raises: with the flag unset, a
    level [q >= 1] that is a [float] and points inside the targets makes
    [targets[target_idx]] fail (a list index must be an integer), and since
    the monitor catches the interrupt only, the first pass that gets a
    price ends the run with that exception, before any order call. *)
Theorem float_trigger_level_raises
    (symbol entry_price side qty trade_id : value) (q : Q) (ts : list scalar)
    (t : tick) (row : candle) (ticks : list tick) (l : locals) (w : world) :
  truthy (sl_moved l) = false ->
  (1 <= q)%Q ->
  (q - 1 < inject_Z (Z.of_nat (List.length ts)))%Q ->
  last (klines t) = Some row ->
  loop symbol (SFloat q) (VList ts) entry_price side qty trade_id (t :: ticks) l w
  = (Crashed, (l, emit (get_klines symbol "1m" 1) w)).
Proof.
  intros Hflag Hq Hlen Hrow. cbn [loop]. unfold iteration. rewrite Hrow.
  assert (Hnone : trigger_observed (SFloat q) (VList ts) side l (close row) = None).
  { unfold trigger_observed, trigger_enabled, target_idx, in_range, len_targets,
      subscript, Py.Qlt_bool. cbn [as_num]. rewrite Hflag.
    assert (H1 : Qle_bool q 0 = false).
    { destruct (Qle_bool q 0) eqn:E; [| reflexivity]. apply Qle_bool_iff in E. lra. }
    assert (H2 : Qle_bool 0 (q - 1) = true) by (apply Qle_bool_iff; lra).
    assert (H3 : Qle_bool (inject_Z (Z.of_nat (List.length ts))) (q - 1) = false).
    { clear H2.
      destruct (Qle_bool (inject_Z (Z.of_nat (List.length ts))) (q - 1)) eqn:E;
        [| reflexivity].
      apply Qle_bool_iff in E. lra. }
    now rewrite H1, H2, H3. }
  now rewrite Hnone.
Qed.

Lemma float_trigger_level_raises_witness :
  loop Scenario.symbol (SFloat 1)
    (VList [SFloat 50300; SFloat 50500; SFloat 50800; SFloat 51000])
    Scenario.entry_price Scenario.side Scenario.qty Scenario.trade_id
    [Scenario.pass 50000 Scenario.accepted None] Scenario.start Scenario.stored
  = (Crashed, (Scenario.start, emit (get_klines Scenario.symbol "1m" 1) Scenario.stored)).
Proof.
  apply (float_trigger_level_raises Scenario.symbol Scenario.entry_price Scenario.side
           Scenario.qty Scenario.trade_id 1
           [SFloat 50300; SFloat 50500; SFloat 50800; SFloat 51000]
           (Scenario.pass 50000 Scenario.accepted None) (Scenario.row 50000)).
  - reflexivity.
  - discriminate.
  - reflexivity.
  - reflexivity.
Defined.

(** ** Request bodies *)

Ltac only_keys Hv :=
  repeat (apply lookup_insert_Some in Hv as [[<- _] | [_ Hv]]; [cbn; tauto |]);
  try (rewrite lookup_empty in Hv; discriminate Hv).

(** X29. The order payload of [place_order]: side in lower case, pair and
    quantity as given; the order type is ["market_order"] for MARKET (in any
    letter case) and for ["STOP_MARKET"] (exactly so spelled), and
    ["limit_order"] for anything else; a price and a stop price are
    included only when truthy, so [None] and also a price of zero are left
    out; and the payload has no other key. *)
Theorem order_payload_fields (symbol : value) (side : string) (qty : value)
    (order_type : string) (price : value) (params : gmap string value) :
  let payload := ExecutionClient.order_payload symbol side qty order_type price params in
  let stop := dict_get params "stopPrice" VNone in
  payload !! "side" = Some (VScalar (SStr (ExecutionClient.lower side)))
  /\ payload !! "pair" = Some symbol
  /\ payload !! "total_quantity" = Some qty
  /\ payload !! "order_type"
     = Some (VScalar (SStr (if String.eqb (Py.upper order_type) "MARKET"
                               || String.eqb order_type "STOP_MARKET"
                            then "market_order" else "limit_order")))
  /\ payload !! "price" = (if truthy price then Some price else None)
  /\ payload !! "stop_price" = (if truthy stop then Some stop else None)
  /\ (forall k, is_Some (payload !! k) ->
        In k ["side"; "pair"; "order_type"; "total_quantity"; "price"; "stop_price"]).
Proof.
  cbv zeta. unfold ExecutionClient.order_payload.
  destruct (String.eqb (Py.upper order_type) "MARKET");
    destruct (String.eqb order_type "STOP_MARKET");
    destruct (truthy price);
    destruct (truthy (dict_get params "stopPrice" VNone));
    cbn [orb];
    (repeat split;
     [ now rewrite ?lookup_insert_ne, ?lookup_insert_eq by discriminate ..
     | intros k [v Hv]; only_keys Hv ]).
Qed.

(** X30. What the gateway is asked for the calls of the supervisor. The
    entry is a market order without price or stop price; the stop-loss is a
    market order carrying [stop_price] unless that price is zero, in which
    case it is left out and a plain market order remains; a target is a
    limit order carrying its price unless that is zero, and carrying its
    quantity also when that is 0.000; the breakeven edit sends the new stop
    under both [stop_loss_price] and [stop_price], also when it is zero, and
    sends nothing but the order id when the record has no entry price. *)
Theorem supervisor_request_bodies (order_side sl_side : string) (qty sl_price chunk_qty t : Q)
    (order_id entry_price : value) :
  (exists entry,
      ExecutionClient.body_of (entry_order order_side qty) = Some entry
      /\ entry !! "order_type" = Some (VScalar (SStr "market_order"))
      /\ entry !! "price" = None /\ entry !! "stop_price" = None
      /\ entry !! "total_quantity" = Some (VScalar (SFloat qty)))
  /\ (exists stop,
        ExecutionClient.body_of (stop_order sl_side qty sl_price) = Some stop
        /\ stop !! "order_type" = Some (VScalar (SStr "market_order"))
        /\ stop !! "price" = None
        /\ stop !! "stop_price"
           = (if Qeq_bool sl_price 0 then None else Some (VScalar (SFloat sl_price))))
  /\ (exists target,
        ExecutionClient.body_of (target_order sl_side chunk_qty t) = Some target
        /\ target !! "order_type" = Some (VScalar (SStr "limit_order"))
        /\ target !! "total_quantity" = Some (VScalar (SFloat chunk_qty))
        /\ target !! "price"
           = (if Qeq_bool t 0 then None else Some (VScalar (SFloat t)))
        /\ target !! "stop_price" = None)
  /\ (exists edit,
        ExecutionClient.body_of (edit_order order_id entry_price) = Some edit
        /\ edit !! "id" = Some order_id
        /\ edit !! "price" = None /\ edit !! "total_quantity" = None
        /\ edit !! "stop_price"
           = (if ExecutionClient.is_none entry_price then None else Some entry_price)
        /\ edit !! "stop_loss_price" = edit !! "stop_price").
Proof.
  split; [| split; [| split]].
  - eexists. split; [reflexivity |]. repeat split.
  - eexists. split; [reflexivity |].
    unfold ExecutionClient.order_payload, dict_get.
    rewrite lookup_singleton_eq. cbn [truthy truthy_scalar VNone].
    change (String.eqb (Py.upper "STOP_MARKET") "MARKET") with false.
    change (String.eqb "STOP_MARKET" "STOP_MARKET") with true. cbv iota.
    destruct (Qeq_bool sl_price 0); cbn [negb]; repeat split.
  - eexists. split; [reflexivity |].
    unfold ExecutionClient.order_payload, dict_get.
    rewrite lookup_empty. cbn [truthy truthy_scalar VNone].
    change (String.eqb (Py.upper "LIMIT") "MARKET") with false.
    change (String.eqb "LIMIT" "STOP_MARKET") with false. cbv iota.
    destruct (Qeq_bool t 0); cbn [negb]; repeat split.
  - eexists. split; [reflexivity |].
    unfold ExecutionClient.edit_body. cbn [ExecutionClient.is_none VNone].
    destruct (ExecutionClient.is_none entry_price); repeat split.
Qed.
